(** * SOFEA dashboard mock-up: routing and view projections

    A shallow embedding of the routing callback and of the page builders of
    [app.py] (dark theme) and
    [sofea_light_theme_storyboard_render_ready_app.py] (light theme).  The two
    files share [route], [bar_click], [page_bucket] and [page_detail] line for
    line up to colours; the light theme adds [rotate_highlights].  Markup and
    styling are left out: a page is modelled by the data its charts and tables
    are built from. *)

From Stdlib Require Import Bool Ascii String List ZArith QArith Qround Qminmax Lia.
From Stdlib Require Import Permutation Sorted.
Import ListNotations.

Local Open Scope string_scope.
Local Open Scope list_scope.
Local Open Scope Z_scope.

(** ** Python values *)

(** The exceptions the modelled callbacks can raise. *)
Inductive PyExn : Type :=
| NameError (name : string)
| IndexError
| ZeroDivisionError.

Inductive result (A : Type) : Type :=
| Ok (a : A)
| Raise (e : PyExn).

Arguments Ok {A} a.
Arguments Raise {A} e.

Definition rbind {A B : Type} (r : result A) (k : A -> result B) : result B :=
  match r with
  | Ok a => k a
  | Raise e => Raise e
  end.

Notation "x <-? r ;; k" := (rbind r (fun x => k))
  (at level 61, r at next level, right associativity).

(** [xs[i]] on a Python list: a negative index counts from the end. *)
Definition py_getitem {A : Type} (xs : list A) (i : Z) : result A :=
  let n := Z.of_nat (List.length xs) in
  let j := if i <? 0 then i + n else i in
  if (0 <=? j) && (j <? n)
  then match nth_error xs (Z.to_nat j) with
       | Some a => Ok a
       | None => Raise IndexError
       end
  else Raise IndexError.

(** [a % b] on Python integers. *)
Definition py_mod (a b : Z) : result Z :=
  if b =? 0 then Raise ZeroDivisionError else Ok (a mod b).

(** [list(range(a, b))] *)
Definition range (a b : Z) : list Z :=
  map (fun i => a + Z.of_nat i) (seq 0 (Z.to_nat (b - a))).

(** [xs.cumsum()] *)
Fixpoint cumsum_from (acc : Z) (xs : list Z) : list Z :=
  match xs with
  | [] => []
  | x :: xs' => (acc + x) :: cumsum_from (acc + x) xs'
  end.

Definition cumsum (xs : list Z) : list Z := cumsum_from 0 xs.

(** ** Python string primitives used by [route] *)

Module PyStr.

(** [startswith p s] is [s.startswith(p)]. *)
Fixpoint startswith (p s : string) : bool :=
  match p with
  | EmptyString => true
  | String a p' =>
      match s with
      | EmptyString => false
      | String b s' => Ascii.eqb a b && startswith p' s'
      end
  end.

(** [occurs sep s] is [sep in s], for a non-empty [sep]. *)
Fixpoint occurs (sep s : string) : bool :=
  match s with
  | EmptyString => startswith sep EmptyString
  | String _ s' => startswith sep s || occurs sep s'
  end.

(** [s.split(sep)] for a non-empty [sep]: the occurrences of [sep] are
    found from the left and do not overlap.  [skip] counts the characters
    of an occurrence that are still to be passed over. *)
Fixpoint split_skip (sep : string) (skip : nat) (s : string) : list string :=
  match s with
  | EmptyString => [EmptyString]
  | String c s' =>
      match skip with
      | S k => split_skip sep k s'
      | O =>
          if startswith sep s
          then EmptyString :: split_skip sep (String.length sep - 1) s'
          else match split_skip sep 0 s' with
               | seg :: segs => String c seg :: segs
               | [] => [String c EmptyString]
               end
      end
  end.

Definition split (sep s : string) : list string := split_skip sep 0 s.

(** [s.replace(old, new)] for a non-empty [old]: every occurrence found
    from the left, without overlap, is replaced. *)
Fixpoint replace_skip (old new : string) (skip : nat) (s : string) : string :=
  match s with
  | EmptyString => EmptyString
  | String c s' =>
      match skip with
      | S k => replace_skip old new k s'
      | O =>
          if startswith old s
          then new ++ replace_skip old new (String.length old - 1) s'
          else String c (replace_skip old new 0 s')
      end
  end.

Definition replace (old new s : string) : string := replace_skip old new 0 s.

(** [sep.join(segs)] *)
Fixpoint join (sep : string) (segs : list string) : string :=
  match segs with
  | [] => EmptyString
  | seg :: rest =>
      match rest with
      | [] => seg
      | _ :: _ => seg ++ sep ++ join sep rest
      end
  end.

(** [segs[-1]] on the list a [split] returned (it is never empty). *)
Definition last_segment (segs : list string) : string :=
  List.last segs EmptyString.

End PyStr.

(** ** The data frame [DF] *)

Inductive FieldOfStudy : Type := Oncology | Neuroscience | Immunology.

(** One row of [DF].  [SOFEA] and [Capital_M_USD] are floats rounded to one
    decimal by [np.round(_, 1)]: the record holds their number of tenths.
    The four bucket scores are [astype(int)] columns. *)
Record SubjectRecord : Type := {
  Scientist : string;
  Award_Year : Z;
  First_Publication_Year : Z;
  SOFEA : Z;
  AIS : Z;
  EIS : Z;
  HIS : Z;
  SIS : Z;
  NIH_Grants : Z;
  Companies : Z;
  Capital_M_USD : Z;
  Field : FieldOfStudy;
  Years_Since_Award : Z
}.

Definition DataFrame : Type := list SubjectRecord.

Definition SCIENTISTS : list string :=
  [ "Dr. Sarah Chen"; "Dr. Emily Johnson"; "Dr. James Washington";
    "Dr. Diego Rossi"; "Dr. Elena Park"; "Dr. Farah Khan";
    "Dr. Miguel Alvarez"; "Dr. Priya Sharma"; "Dr. Noah Lee"; "Dr. Lila Patel" ].

(** The four metric columns a bucket page is built for. *)
Inductive MetricCol : Type := col_AIS | col_EIS | col_HIS | col_SIS.

Definition col_name (k : MetricCol) : string :=
  match k with
  | col_AIS => "AIS"
  | col_EIS => "EIS"
  | col_HIS => "HIS"
  | col_SIS => "SIS"
  end.

(** [r[metric_col]] *)
Definition metric (k : MetricCol) (r : SubjectRecord) : Z :=
  match k with
  | col_AIS => AIS r
  | col_EIS => EIS r
  | col_HIS => HIS r
  | col_SIS => SIS r
  end.

(** ** Routing *)

(** Which page builder [route] calls, and with which arguments. *)
Inductive PageSelection : Type :=
| Overview
| Bucket (title : string) (metric_col : MetricCol)
| Explorer
| Detail (scientist : string).

(** The dispatch of [route(path)]; [None] is a [None] pathname. *)
Definition resolve (path : option string) : PageSelection :=
  match path with
  | None => Overview
  | Some p =>
      if String.eqb p "/" then Overview
      else if PyStr.startswith "/detail/" p then
        Detail (PyStr.replace "%20" " "
                  (PyStr.last_segment (PyStr.split "/detail/" p)))
      else if String.eqb p "/ais" then Bucket "Academic Impact (AIS)" col_AIS
      else if String.eqb p "/eis" then Bucket "Economic Impact (EIS)" col_EIS
      else if String.eqb p "/his" then Bucket "Health Impact (HIS)" col_HIS
      else if String.eqb p "/sis" then Bucket "Social Impact (SIS)" col_SIS
      else if String.eqb p "/explorer" then Explorer
      else Overview
  end.

(** ** The bar-click callback *)

(** One entry of [clickData["points"]]; [x] is the category label. *)
Record Point : Type := { x : string }.

(** [clickData]: [None] stands for a falsy payload ([None] or an empty
    dict), [Some pts] for a dict whose ["points"] entry is [pts], each
    point with its ["x"] entry, which is what a click on a bar sends.  A
    truthy payload that lacks one of these keys, on which the callback
    raises [KeyError], has no counterpart here. *)
Definition ClickData : Type := option (list Point).

(** Lines 313-314 of [bar_click]: the label of the clicked bar.  On a falsy
    payload the callback evaluates [dash.no_update], and neither file binds
    the name [dash]. *)
Definition clickToSubject (cd : ClickData) : result string :=
  match cd with
  | None => Raise (NameError "dash")
  | Some pts => p <-? py_getitem pts 0 ;; Ok (x p)
  end.

Definition bar_click (cd : ClickData) : result string :=
  name <-? clickToSubject cd ;; Ok ("/detail/" ++ name)%string.

(** What the claims call a syntactically valid encoded path: every
    character is one RFC 3986 allows in a path (unreserved, sub-delimiter,
    [:], [@], [/]) or the [%] of an escape that two hexadecimal digits
    follow. *)
Definition is_hex (c : ascii) : bool :=
  let n := nat_of_ascii c in
  ((48 <=? n) && (n <=? 57) || (65 <=? n) && (n <=? 70)
   || (97 <=? n) && (n <=? 102))%nat.

Definition is_path_char (c : ascii) : bool :=
  let n := nat_of_ascii c in
  ((48 <=? n) && (n <=? 57) || (65 <=? n) && (n <=? 90)
   || (97 <=? n) && (n <=? 122)
   || existsb (Ascii.eqb c)
        (list_ascii_of_string "-._~!$&'()*+,;=:@/"))%nat.

Fixpoint is_encoded_path (s : string) : bool :=
  match s with
  | EmptyString => true
  | String c s' =>
      if Ascii.eqb c "%"%char
      then match s' with
           | String h1 (String h2 _) => is_hex h1 && is_hex h2 && is_encoded_path s'
           | _ => false
           end
      else is_path_char c && is_encoded_path s'
  end.

(** ** The rotating highlights (light theme) *)

Definition IMPACT_HIGHLIGHTS : list string :=
  [ "1,245 awardees supported";
    "$1.2B capital raised";
    "6 FDA‑approved therapies";
    "78% above national oRCR";
    "42% in leadership roles" ].

(** [rotate_highlights(n, idx)] over the highlight list [hl]; the callback
    does not use [n], the interval's tick count. *)
Definition rotate_highlights_over (hl : list string) (n idx : Z)
  : result (string * Z) :=
  i <-? py_mod (idx + 1) (Z.of_nat (List.length hl)) ;;
  h <-? py_getitem hl i ;;
  Ok (h, i).

Definition rotate_highlights : Z -> Z -> result (string * Z) :=
  rotate_highlights_over IMPACT_HIGHLIGHTS.

(** The two components the callback writes: the children of
    [impact-headline] and the data of the [hi-index] store. *)
Record HighlightState : Type := {
  headline : option string;
  hi_index : Z
}.


(** One firing of the callback on the current store. *)
Definition tick (hl : list string) (n : Z) (st : HighlightState)
  : result HighlightState :=
  out <-? rotate_highlights_over hl n (hi_index st) ;;
  Ok {| headline := Some (fst out); hi_index := snd out |}.

(** [k] firings in a row, the first with tick count [n]. *)
Fixpoint ticks (hl : list string) (k : nat) (n : Z) (st : HighlightState)
  : result HighlightState :=
  match k with
  | O => Ok st
  | S k' => st' <-? tick hl n st ;; ticks hl k' (n + 1) st'
  end.

(** ** Page builders *)

(** The integer nearest to [q], a tie going to the even one. *)
Definition round_half_even (q : Q) : Z :=
  let f := Qfloor q in
  match Qcompare (q - inject_Z f) (1 # 2) with
  | Lt => f
  | Gt => f + 1
  | Eq => if Z.even f then f else f + 1
  end.

(** [np.round(q, d)] taken on the exact value of [q]: the nearest multiple
    of [10^-d], a tie going to the even one.  numpy works in doubles
    ([rint(q * 10^d) / 10^d]), so on a value within a rounding error of a
    tie its last digit can differ from this one; nothing below reads the
    digits of a rounded value. *)
Definition np_round (d : nat) (q : Q) : Q :=
  Qmake (round_half_even (q * inject_Z (10 ^ Z.of_nat d)))
        (Z.to_pos (10 ^ Z.of_nat d)).

(** [px.histogram(COHORT, nbins=9)]: the figure only carries the sample
    and the requested bin count; the bins are computed by the plotting
    library when the figure is drawn. *)
Record HistogramFigure : Type := {
  hist_x : list Q;
  hist_nbins : Z
}.

(** A [px.bar] figure: the (x, y) pair of every bar, in drawing order. *)
Definition BarFigure : Type := list (string * Z).

(** One record of [DF[["Scientist","Field","Award_Year",metric_col]]]. *)
Record BucketRow : Type := {
  row_Scientist : string;
  row_Field : FieldOfStudy;
  row_Award_Year : Z;
  row_metric : Z
}.

Definition bucket_row (k : MetricCol) (r : SubjectRecord) : BucketRow :=
  {| row_Scientist := Scientist r;
     row_Field := Field r;
     row_Award_Year := Award_Year r;
     row_metric := metric k r |}.

(** [timeline_df] of [page_detail], column by column. *)
Record Timeline : Type := {
  tl_Year : list Z;
  tl_Publications : list Z;
  tl_Grants : list Z
}.

(** The mock publications table of [page_detail], column by column. *)
Record PublicationsTable : Type := {
  pub_Year : list Z;
  pub_Journal : list string;
  pub_oRCR : list Q
}.

(** What [page_detail] shows for a scientist it found. *)
Record SubjectDetailView : Type := {
  subject : SubjectRecord;
  df_break : list (string * Z);
  timeline_df : Timeline;
  publications : PublicationsTable
}.

(** The content of the layout a page builder returns. *)
Inductive Page : Type :=
| OverviewPage (hist : HistogramFigure) (scores : BarFigure)
| BucketPage (title : string) (fig : BarFigure) (table : list BucketRow)
| ExplorerPage (table : DataFrame)
| DetailPage (view : SubjectDetailView)
| NotFoundPage (message : string).

Section Pages.

(** [df.sort_values(by, ascending=False)] with pandas' default sort kind. *)
Variable sort_values_desc : (SubjectRecord -> Z) -> DataFrame -> DataFrame.

(** The state of numpy's process-wide generator, and the two draws
    [page_detail] makes from it: [np.random.poisson(lam, size)] and
    [np.random.uniform(low, high, size)]. *)
Variable RandomState : Type.
Variable poisson : Q -> nat -> RandomState -> list Z * RandomState.
Variable uniform : Q -> Q -> nat -> RandomState -> list Q * RandomState.

(** The module-level frame and cohort sample, built once at import. *)
Variable DF : DataFrame.
Variable COHORT : list Q.

(** Computations that read and advance the generator. *)
Definition Rand (A : Type) : Type := RandomState -> A * RandomState.

Definition ret {A : Type} (a : A) : Rand A := fun st => (a, st).

Definition bind {A B : Type} (m : Rand A) (k : A -> Rand B) : Rand B :=
  fun st => let (a, st') := m st in k a st'.

Notation "x <- m ;; k" := (bind m (fun x => k))
  (at level 61, m at next level, right associativity).

Definition histogram_component : HistogramFigure :=
  {| hist_x := COHORT; hist_nbins := 9 |}.

Definition sofea_score_bar : BarFigure :=
  map (fun r => (Scientist r, SOFEA r)) (sort_values_desc SOFEA DF).

Definition page_overview : Page :=
  OverviewPage histogram_component sofea_score_bar.

(** The frame [page_bucket] hands to [px.bar]. *)
Definition topByMetric (k : MetricCol) : DataFrame :=
  sort_values_desc (metric k) DF.

(** The [data] of the [DataTable] of [page_bucket]. *)
Definition bucketTable (k : MetricCol) : list BucketRow :=
  map (bucket_row k) DF.

Definition page_bucket (title : string) (metric_col : MetricCol) : Page :=
  BucketPage title
    (map (fun r => (Scientist r, metric metric_col r)) (topByMetric metric_col))
    (bucketTable metric_col).

Definition page_explorer : Page := ExplorerPage DF.

(** [DF[DF["Scientist"]==scientist]] *)
Definition rows_named (scientist : string) : DataFrame :=
  filter (fun r => String.eqb (Scientist r) scientist) DF.

(** The bucket breakdown of the row [r]. *)
Definition bucket_breakdown (r : SubjectRecord) : list (string * Z) :=
  [ ("AIS", AIS r); ("EIS", EIS r); ("HIS", HIS r); ("SIS", SIS r) ].

Definition page_detail (scientist : string) : Rand Page :=
  match rows_named scientist with
  | [] => ret (NotFoundPage "Scientist not found")
  | r :: _ =>
      let tyears := range (First_Publication_Year r) (Award_Year r + 4) in
      pubs <- poisson (12 # 10) (List.length tyears) ;;
      grants <- poisson (6 # 10) (List.length tyears) ;;
      orcr <- uniform (8 # 10) (41 # 10) 5 ;;
      ret (DetailPage
             {| subject := r;
                df_break := bucket_breakdown r;
                timeline_df :=
                  {| tl_Year := tyears;
                     tl_Publications := cumsum pubs;
                     tl_Grants := map (Z.max 0) (cumsum grants) |};
                publications :=
                  {| pub_Year :=
                       map (fun i => First_Publication_Year r + i) (range 0 5);
                     pub_Journal :=
                       [ "Nature"; "Cancer Cell"; "Cell Reports"; "PNAS";
                         "Science Advances" ];
                     pub_oRCR := map (np_round 2) orcr |} |})
  end.

(** The page builder a selection stands for. *)
Definition render (sel : PageSelection) : Rand Page :=
  match sel with
  | Overview => ret page_overview
  | Bucket title metric_col => ret (page_bucket title metric_col)
  | Explorer => ret page_explorer
  | Detail scientist => page_detail scientist
  end.

Definition route (path : option string) : Rand Page :=
  render (resolve path).

End Pages.

(** ** What the library calls are assumed to do *)

(** pandas documents [sort_values] as returning the rows of the frame
    ordered by the column; its default [kind="quicksort"] is not documented
    as stable. *)
Definition sort_values_contract
  (sv : (SubjectRecord -> Z) -> DataFrame -> DataFrame) : Prop :=
  (forall key df, Permutation (sv key df) df) /\
  (forall key df, StronglySorted (fun a b => key b <= key a) (sv key df)).

(** Rows of equal key come out in the order they went in. *)
Definition keeps_tie_order (key : SubjectRecord -> Z) (out inp : DataFrame)
  : Prop :=
  forall v, filter (fun r => key r =? v) out = filter (fun r => key r =? v) inp.


(** Insertion into a descending list, a new row going behind the rows of
    equal key ([after_ties = true]) or in front of them. *)
Fixpoint insert_desc (after_ties : bool) (key : SubjectRecord -> Z)
  (r : SubjectRecord) (l : DataFrame) : DataFrame :=
  match l with
  | [] => [r]
  | y :: t =>
      if (if after_ties then key r <=? key y else key r <? key y)
      then y :: insert_desc after_ties key r t
      else r :: y :: t
  end.

Definition insertion_sort_desc (after_ties : bool) (key : SubjectRecord -> Z)
  (df : DataFrame) : DataFrame :=
  fold_right (insert_desc after_ties key) [] df.

(** What [kind="stable"] computes. *)
Definition stable_sort_desc := insertion_sort_desc false.




(** A generator whose state is the number of variates drawn so far. *)
Module CounterRng.

Definition RandomState : Type := nat.

Definition poisson (lam : Q) (n : nat) (st : RandomState)
  : list Z * RandomState :=
  (map (fun i => Z.of_nat ((st + i) mod 4)) (seq 0 n), (st + n)%nat).

Definition uniform (low high : Q) (n : nat) (st : RandomState)
  : list Q * RandomState :=
  (map (fun i => (low + (high - low) * (Z.of_nat ((st + i) mod 7) # 7))%Q)
       (seq 0 n),
   (st + n)%nat).

Definition drawn (st : RandomState) : nat := st.

End CounterRng.

(** Small frames the statements below are tried on. *)
Module Samples.

Definition row (name : string) (award first_pub ais eis his sis : Z)
  : SubjectRecord :=
  {| Scientist := name;
     Award_Year := award;
     First_Publication_Year := first_pub;
     SOFEA := 79;
     AIS := ais; EIS := eis; HIS := his; SIS := sis;
     NIH_Grants := 1;
     Companies := 0;
     Capital_M_USD := 0;
     Field := Oncology;
     Years_Since_Award := 2026 - award |}.

Definition chen := row "Dr. Sarah Chen" 2019 2015 32 18 20 9.
Definition johnson := row "Dr. Emily Johnson" 2020 2017 32 21 19 9.
Definition washington := row "Dr. James Washington" 2018 2016 40 12 22 7.

Definition frame : DataFrame := [chen; johnson; washington].

End Samples.

(** ** The navigation bar *)

(** A [dcc.Link]: what it shows and where it leads. *)
Record Link : Type := {
  link_label : string;
  link_href : string
}.

(** The links of [topnav()], the same in both themes. *)
Definition topnav : list Link :=
  [ {| link_label := "Overview"; link_href := "/" |};
    {| link_label := "Academic Impact"; link_href := "/ais" |};
    {| link_label := "Economic Impact"; link_href := "/eis" |};
    {| link_label := "Health Impact"; link_href := "/his" |};
    {| link_label := "Social Impact"; link_href := "/sis" |};
    {| link_label := "Awardee Explorer"; link_href := "/explorer" |} ].

(** ** The module-level data *)

(** [np.clip(q, low, high)], which is
    [np.minimum(high, np.maximum(q, low))]. *)
Definition np_clip (low high q : Q) : Q := Qmin high (Qmax q low).

(** [astype(int)] on a float: the fraction is dropped. *)
Definition astype_int (q : Q) : Z :=
  if Qle_bool 0 q then Qfloor q else Qceiling q.

(** An operation on two arrays of one shape, element by element. *)
Definition map2 {A B C : Type} (f : A -> B -> C) (xs : list A) (ys : list B)
  : list C :=
  map (fun p => f (fst p) (snd p)) (combine xs ys).

(** The doubles that the literals [5.2], [9.6] and [9.9] denote. *)
Definition double_5_2 : Q := 5854679515581645 # 1125899906842624.
Definition double_9_6 : Q := 5404319552844595 # 562949953421312.
Definition double_9_9 : Q := 5573204538870989 # 562949953421312.

(** The arrays [pd.DataFrame] is given, one for each column. *)
Record Columns : Type := {
  c_Scientist : list string;
  c_Award_Year : list Z;
  c_First_Publication_Year : list Z;
  c_SOFEA : list Z;
  c_AIS : list Z;
  c_EIS : list Z;
  c_HIS : list Z;
  c_SIS : list Z;
  c_NIH_Grants : list Z;
  c_Companies : list Z;
  c_Capital_M_USD : list Z;
  c_Field : list FieldOfStudy
}.

Definition column_lengths (c : Columns) : list nat :=
  [ List.length (c_Award_Year c); List.length (c_First_Publication_Year c);
    List.length (c_SOFEA c); List.length (c_AIS c); List.length (c_EIS c);
    List.length (c_HIS c); List.length (c_SIS c);
    List.length (c_NIH_Grants c); List.length (c_Companies c);
    List.length (c_Capital_M_USD c); List.length (c_Field c) ].

(** Row [i] of the frame, with the [Years_Since_Award] column the module
    adds right after building it, [now_year] being [datetime.now().year]. *)
Definition frame_row (now_year : Z) (c : Columns) (i : nat) : SubjectRecord :=
  {| Scientist := nth i (c_Scientist c) EmptyString;
     Award_Year := nth i (c_Award_Year c) 0;
     First_Publication_Year := nth i (c_First_Publication_Year c) 0;
     SOFEA := nth i (c_SOFEA c) 0;
     AIS := nth i (c_AIS c) 0;
     EIS := nth i (c_EIS c) 0;
     HIS := nth i (c_HIS c) 0;
     SIS := nth i (c_SIS c) 0;
     NIH_Grants := nth i (c_NIH_Grants c) 0;
     Companies := nth i (c_Companies c) 0;
     Capital_M_USD := nth i (c_Capital_M_USD c) 0;
     Field := nth i (c_Field c) Oncology;
     Years_Since_Award := now_year - nth i (c_Award_Year c) 0 |}.

(** [pd.DataFrame({...})]: arrays of different lengths are refused (pandas
    raises [ValueError]), which [None] stands for. *)
Definition pd_DataFrame (now_year : Z) (c : Columns) : option DataFrame :=
  let n := List.length (c_Scientist c) in
  if forallb (Nat.eqb n) (column_lengths c)
  then Some (map (frame_row now_year c) (seq 0 n))
  else None.

Section Generation.

(** The generator and the draws the module makes from it at import:
    [np.random.choice(values, size=n, p=weights)] and
    [np.random.normal(loc, scale, n)]. *)
Variable RandomState : Type.
Variable choice :
  forall A : Type,
    list A -> option (list Q) -> nat -> RandomState -> list A * RandomState.
Variable normal : Q -> Q -> nat -> RandomState -> list Q * RandomState.

(** [np.round(q, 1)] as a number of tenths; it is computed in floating
    point and is left open. *)
Variable np_round1_tenths : Q -> Z.

(** [datetime.now().year] *)
Variable now_year : Z.

Local Abbreviation Gen := (Rand RandomState).
Local Notation "v <~ m ;; k" := (bind RandomState m (fun v => k))
  (at level 61, m at next level, right associativity).

(** Lines 23-48 and 58 of [app.py] (49-76 of the light theme): the
    columns in the order they are drawn, the frame and the cohort sample.
    [capital] multiplies the company count with one of 3.5, 8.7, 12.1: the
    column holds tenths, so the factors are 35, 87 and 121. *)
Definition generate : Gen (option DataFrame * list Q) :=
  let n := List.length SCIENTISTS in
  award_year <~ choice Z [2018; 2019; 2020; 2021; 2022; 2023] None n ;;
  gap <~ choice Z [2; 3; 4; 5; 6] None n ;;
  let first_pub := map2 Z.sub award_year gap in
  sofea <~ normal (79 # 10) (8 # 10) n ;;
  ais <~ normal 32 6 n ;;
  eis <~ normal 18 5 n ;;
  his <~ normal 20 3 n ;;
  sis <~ normal 9 2 n ;;
  nih_grants <~ choice Z [1; 2; 3; 4]
                 (Some [35 # 100; 4 # 10; 2 # 10; 5 # 100]) n ;;
  companies <~ choice Z [0; 1; 2] (Some [7 # 10; 25 # 100; 5 # 100]) n ;;
  factor <~ choice Z [35; 87; 121] None n ;;
  let capital := map2 Z.mul companies factor in
  field <~ choice FieldOfStudy [Oncology; Neuroscience; Immunology] None n ;;
  cohort <~ normal (78 # 10) (12 # 10) 1245 ;;
  ret RandomState
    (pd_DataFrame now_year
       {| c_Scientist := SCIENTISTS;
          c_Award_Year := award_year;
          c_First_Publication_Year := first_pub;
          c_SOFEA :=
            map (fun q => np_round1_tenths (np_clip double_5_2 double_9_6 q))
                sofea;
          c_AIS := map (fun q => astype_int (np_clip 18 48 q)) ais;
          c_EIS := map (fun q => astype_int (np_clip 6 30 q)) eis;
          c_HIS := map (fun q => astype_int (np_clip 12 26 q)) his;
          c_SIS := map (fun q => astype_int (np_clip 4 14 q)) sis;
          c_NIH_Grants := nih_grants;
          c_Companies := companies;
          c_Capital_M_USD := capital;
          c_Field := field |},
     map (np_clip 1 double_9_9) cohort).

End Generation.

(** What one row of the generated frame satisfies. *)
Definition row_in_bounds (now_year : Z) (r : SubjectRecord) : Prop :=
  2018 <= Award_Year r <= 2023 /\
  2 <= Award_Year r - First_Publication_Year r <= 6 /\
  18 <= AIS r <= 48 /\
  6 <= EIS r <= 30 /\
  12 <= HIS r <= 26 /\
  4 <= SIS r <= 14 /\
  1 <= NIH_Grants r <= 4 /\
  0 <= Companies r <= 2 /\
  0 <= Capital_M_USD r <= 242 /\
  (Companies r = 0 <-> Capital_M_USD r = 0) /\
  Years_Since_Award r = now_year - Award_Year r.

(** A generator that cycles through the values it is given. *)
Module CounterGen.

Definition RandomState : Type := nat.

Definition choice (A : Type) (values : list A) (weights : option (list Q))
  (n : nat) (st : RandomState) : list A * RandomState :=
  (match values with
   | [] => []
   | d :: _ =>
       map (fun i => nth ((st + i) mod List.length values) values d) (seq 0 n)
   end,
   (st + n)%nat).

Definition normal (loc scale : Q) (n : nat) (st : RandomState)
  : list Q * RandomState :=
  (map (fun i =>
          (loc + scale * ((Z.of_nat ((st + i) mod 9) - 4) # 2))%Q)
       (seq 0 n),
   (st + n)%nat).

Definition np_round1_tenths (q : Q) : Z := round_half_even (q * 10).

End CounterGen.

(** * Properties *)

(** ** Strings *)

Module PyStrFacts.
Import PyStr.

Lemma split_skip_not_nil (sep : string) (s : string) :
  forall skip, split_skip sep skip s <> [].
Proof.
  induction s as [| c s IH]; intros skip; simpl.
  - discriminate.
  - destruct skip as [| k]; [| apply IH].
    destruct (startswith sep (String c s)); [discriminate |].
    destruct (split_skip sep 0 s); discriminate.
Qed.

(** A string that does not contain the separator is its own only segment. *)
Lemma split_free (sep s : string) :
  occurs sep s = false -> split sep s = [s].
Proof.
  unfold split.
  induction s as [| c s IH]; simpl; intros H.
  - reflexivity.
  - apply orb_false_iff in H as [Hhere Hlater].
    rewrite Hhere, (IH Hlater). reflexivity.
Qed.

(** Nothing is replaced in a string that does not contain [old]. *)
Lemma replace_free (old new s : string) :
  occurs old s = false -> replace old new s = s.
Proof.
  unfold replace.
  induction s as [| c s IH]; simpl; intros H.
  - reflexivity.
  - apply orb_false_iff in H as [Hhere Hlater].
    rewrite Hhere, (IH Hlater). reflexivity.
Qed.

Lemma join_cons_char (sep : string) (c : ascii) (seg : string) (segs : list string) :
  join sep (String c seg :: segs) = String c (join sep (seg :: segs)).
Proof. simpl. destruct segs; reflexivity. Qed.

(** Python's identity [s.replace(old, new) == new.join(s.split(old))]. *)
Lemma replace_skip_join_split (old new s : string) :
  forall skip,
    replace_skip old new skip s = join new (split_skip old skip s).
Proof.
  induction s as [| c s IH]; intros skip.
  - reflexivity.
  - destruct skip as [| k]; [| apply IH].
    cbn [replace_skip split_skip].
    destruct (startswith old (String c s)).
    + rewrite IH.
      pose proof (split_skip_not_nil old s (String.length old - 1)) as Hne.
      destruct (split_skip old (String.length old - 1) s) as [| seg segs];
        [contradiction | reflexivity].
    + rewrite IH.
      pose proof (split_skip_not_nil old s 0) as Hne.
      destruct (split_skip old 0 s) as [| seg segs]; [contradiction |].
      now rewrite join_cons_char.
Qed.

Lemma replace_join_split (old new s : string) :
  replace old new s = join new (split old s).
Proof. apply replace_skip_join_split. Qed.

Lemma startswith_app (p s : string) : startswith p (p ++ s) = true.
Proof.
  induction p as [| a p IH]; simpl; [reflexivity |].
  now rewrite Ascii.eqb_refl, IH.
Qed.

Lemma last_cons_not_nil (seg : string) (segs : list string) :
  segs <> [] -> last_segment (seg :: segs) = last_segment segs.
Proof. destruct segs; [contradiction | reflexivity]. Qed.

Lemma length_app (s t : string) :
  String.length (s ++ t) = (String.length s + String.length t)%nat.
Proof. induction s as [| c s IH]; cbn; [reflexivity | now rewrite IH]. Qed.

Lemma split_skip_app (sep pre s : string) :
  split_skip sep (String.length pre) (pre ++ s) = split_skip sep 0 s.
Proof.
  induction pre as [| a pre IH]; [| exact IH].
  destruct s; reflexivity.
Qed.

Lemma startswith_inv (p s : string) :
  startswith p s = true -> exists rest, s = (p ++ rest)%string.
Proof.
  revert s. induction p as [| a p IH]; intros s H.
  - now exists s.
  - destruct s as [| b s]; [discriminate |].
    cbn in H. apply andb_true_iff in H as [Hab Hrest].
    apply Ascii.eqb_eq in Hab as ->.
    destruct (IH s Hrest) as [rest ->]. now exists rest.
Qed.

Lemma join_split_bounded (sep : string) (Hsep : sep <> EmptyString) (n : nat) :
  forall s, (String.length s <= n)%nat -> join sep (split sep s) = s.
Proof.
  unfold split.
  induction n as [| n IH]; intros s Hlen.
  - destruct s; [reflexivity | cbn in Hlen; lia].
  - destruct s as [| c s]; [reflexivity |].
    cbn [split_skip].
    destruct (startswith sep (String c s)) eqn:Hhere.
    + destruct sep as [| a sep']; [contradiction |].
      destruct (startswith_inv _ _ Hhere) as [rest Hrest].
      cbn in Hrest. injection Hrest as -> ->.
      replace (String.length (String a sep') - 1)%nat with (String.length sep')
        by (cbn; lia).
      rewrite split_skip_app.
      pose proof (split_skip_not_nil (String a sep') rest 0) as Hne.
      assert (Hrest : (String.length rest <= n)%nat).
      { cbn in Hlen. rewrite length_app in Hlen. lia. }
      specialize (IH rest Hrest).
      destruct (split_skip (String a sep') 0 rest) as [| seg segs];
        [contradiction |].
      cbn [join]. cbn [join] in IH. rewrite IH. reflexivity.
    + assert (Hs : (String.length s <= n)%nat) by (cbn in Hlen; lia).
      specialize (IH s Hs).
      pose proof (split_skip_not_nil sep s 0) as Hne.
      destruct (split_skip sep 0 s) as [| seg segs]; [contradiction |].
      rewrite join_cons_char. now rewrite IH.
Qed.

(** Python's identity [sep.join(s.split(sep)) == s]. *)
Lemma join_split (sep s : string) :
  sep <> EmptyString -> join sep (split sep s) = s.
Proof.
  intros Hsep. now apply (join_split_bounded sep Hsep (String.length s)).
Qed.

End PyStrFacts.

(** ** Routing *)

Lemma resolve_detail_prefix (rest : string) :
  resolve (Some ("/detail/" ++ rest)%string) =
  Detail (PyStr.replace "%20" " "
            (PyStr.last_segment (PyStr.split "/detail/" rest))).
Proof.
  unfold resolve.
  change (String.eqb ("/detail/" ++ rest) "/") with false.
  rewrite PyStrFacts.startswith_app.
  change (PyStr.split "/detail/" ("/detail/" ++ rest))
    with (EmptyString :: PyStr.split "/detail/" rest).
  rewrite PyStrFacts.last_cons_not_nil
    by apply PyStrFacts.split_skip_not_nil.
  reflexivity.
Qed.

(** C3 (as the code has it).  A path that begins with [/detail/] and whose
    remainder holds no further [/detail/] resolves to the Detail selection
    of the remainder with every [%20] replaced by a space. *)
Theorem resolve_detail_remainder (rest : string)
  (Hfree : PyStr.occurs "/detail/" rest = false) :
  resolve (Some ("/detail/" ++ rest)%string) =
  Detail (PyStr.replace "%20" " " rest).
Proof.
  rewrite resolve_detail_prefix.
  now rewrite (PyStrFacts.split_free _ _ Hfree).
Qed.

Lemma resolve_detail_remainder_witness :
  PyStr.occurs "/detail/" "Dr.%20Sarah%20Chen" = false /\
  resolve (Some "/detail/Dr.%20Sarah%20Chen") = Detail "Dr. Sarah Chen".
Proof.
  split.
  - reflexivity.
  - exact (resolve_detail_remainder "Dr.%20Sarah%20Chen" eq_refl).
Defined.

(** C3 as the specification words it fails: the name is what follows the
    last [/detail/] that [split] finds, not what follows the prefix. *)
Lemma resolve_detail_remainder_cex :
  PyStr.startswith "/detail/" "/detail/x/detail/y" = true /\
  resolve (Some "/detail/x/detail/y") = Detail "y" /\
  resolve (Some "/detail/x/detail/y")
    <> Detail (PyStr.replace "%20" " " "x/detail/y").
Proof. repeat split. discriminate. Qed.

(** ** The bar click and the way back through [resolve] *)

Lemma clickToSubject_first (name : string) (more : list Point) :
  clickToSubject (Some ({| x := name |} :: more)) = Ok name.
Proof. reflexivity. Qed.

(** A label holding neither [/detail/] nor [%20] comes back unchanged. *)
Lemma resolve_click_target (name : string) :
  PyStr.occurs "/detail/" name = false ->
  PyStr.occurs "%20" name = false ->
  resolve (Some ("/detail/" ++ name)%string) = Detail name.
Proof.
  intros Hsep Hpct.
  rewrite resolve_detail_prefix, (PyStrFacts.split_free _ _ Hsep).
  change (PyStr.last_segment [name]) with name.
  now rewrite (PyStrFacts.replace_free _ _ _ Hpct).
Qed.

Lemma SCIENTISTS_plain (name : string) :
  In name SCIENTISTS ->
  PyStr.occurs "/detail/" name = false /\ PyStr.occurs "%20" name = false.
Proof.
  unfold SCIENTISTS. simpl.
  intros H.
  repeat (destruct H as [<- | H]; [split; reflexivity |]).
  contradiction.
Qed.

(** C5 (as the code has it).  For each of the ten scientists, a click on
    the bar labelled with the name yields that name, the navigation target
    is [/detail/] followed by the name as it is, and [resolve] maps the
    target back to the Detail selection of the same name. *)
Theorem click_roundtrip (name : string) (more : list Point)
  (Hin : In name SCIENTISTS) :
  clickToSubject (Some ({| x := name |} :: more)) = Ok name /\
  bar_click (Some ({| x := name |} :: more)) = Ok ("/detail/" ++ name)%string /\
  resolve (Some ("/detail/" ++ name)%string) = Detail name.
Proof.
  destruct (SCIENTISTS_plain name Hin) as [Hsep Hpct].
  repeat split.
  now apply resolve_click_target.
Qed.

Lemma click_roundtrip_witness :
  In "Dr. Emily Johnson" SCIENTISTS /\
  clickToSubject (Some [ {| x := "Dr. Emily Johnson" |} ])
    = Ok "Dr. Emily Johnson" /\
  bar_click (Some [ {| x := "Dr. Emily Johnson" |} ])
    = Ok "/detail/Dr. Emily Johnson" /\
  resolve (Some "/detail/Dr. Emily Johnson") = Detail "Dr. Emily Johnson".
Proof.
  assert (Hin : In "Dr. Emily Johnson" SCIENTISTS)
    by (right; left; reflexivity).
  split; [exact Hin |].
  exact (click_roundtrip "Dr. Emily Johnson" [] Hin).
Defined.

(** C5 as the specification words it fails: the target keeps the spaces of
    the name, so it is not an encoded path. *)
Lemma click_target_not_encoded_cex :
  In "Dr. Emily Johnson" SCIENTISTS /\
  bar_click (Some [ {| x := "Dr. Emily Johnson" |} ])
    = Ok "/detail/Dr. Emily Johnson" /\
  is_encoded_path "/detail/Dr. Emily Johnson" = false /\
  is_encoded_path "/detail/Dr.%20Emily%20Johnson" = true.
Proof.
  split; [right; left; reflexivity |].
  repeat split.
Qed.

(** ** The rotating highlights *)

Lemma py_getitem_in_range {A : Type} (xs : list A) (i : Z) (d : A) :
  0 <= i < Z.of_nat (List.length xs) ->
  py_getitem xs i = Ok (nth (Z.to_nat i) xs d).
Proof.
  intros Hi. unfold py_getitem.
  replace (i <? 0) with false by (symmetry; apply Z.ltb_ge; lia).
  replace (0 <=? i) with true by (symmetry; apply Z.leb_le; lia).
  replace (i <? Z.of_nat (List.length xs)) with true
    by (symmetry; apply Z.ltb_lt; lia).
  simpl.
  destruct (nth_error xs (Z.to_nat i)) as [a |] eqn:E.
  - now rewrite (nth_error_nth _ _ d E).
  - apply nth_error_None in E. lia.
Qed.

Lemma rotate_highlights_over_step (hl : list string) (n idx : Z) :
  hl <> [] ->
  let len := Z.of_nat (List.length hl) in
  rotate_highlights_over hl n idx
  = Ok (nth (Z.to_nat ((idx + 1) mod len)) hl EmptyString, (idx + 1) mod len).
Proof.
  intros Hne len.
  assert (Hlen : 0 < len) by (destruct hl; [contradiction | subst len; simpl; lia]).
  unfold rotate_highlights_over, py_mod. fold len.
  replace (len =? 0) with false by (symmetry; apply Z.eqb_neq; lia).
  cbn [rbind].
  rewrite (py_getitem_in_range hl _ EmptyString)
    by (fold len; apply Z.mod_pos_bound; lia).
  reflexivity.
Qed.

Lemma ticks_spec (hl : list string) (Hne : hl <> []) :
  let len := Z.of_nat (List.length hl) in
  forall (k : nat) (n : Z) (st : HighlightState),
    0 <= hi_index st < len ->
    exists st',
      ticks hl k n st = Ok st' /\
      hi_index st' = (hi_index st + Z.of_nat k) mod len /\
      ((0 < k)%nat ->
       headline st' = Some (nth (Z.to_nat (hi_index st')) hl EmptyString)).
Proof.
  intros len.
  assert (Hlen : 0 < len) by (destruct hl; [contradiction | subst len; simpl; lia]).
  induction k as [| k IH]; intros n st Hst.
  - exists st. repeat split.
    + rewrite Z.add_0_r. symmetry. now apply Z.mod_small.
    + intros Hk. inversion Hk.
  - cbn [ticks]. unfold tick.
    rewrite (rotate_highlights_over_step hl n (hi_index st) Hne). fold len.
    cbn [rbind fst snd].
    set (st1 := {| headline := _; hi_index := _ |}).
    assert (H1 : 0 <= hi_index st1 < len)
      by (subst st1; cbn [hi_index]; apply Z.mod_pos_bound; lia).
    destruct (IH (n + 1) st1 H1) as (st' & Hrun & Hidx & Hhead).
    exists st'. split; [exact Hrun |]. split.
    + rewrite Hidx. subst st1. cbn [hi_index].
      rewrite Zplus_mod_idemp_l. f_equal. lia.
    + intros _. destruct k as [| k'].
      * cbn [ticks] in Hrun. injection Hrun as <-. reflexivity.
      * apply Hhead. lia.
Qed.





(** ** Sorting *)

Lemma insert_desc_perm (b : bool) (key : SubjectRecord -> Z)
  (r : SubjectRecord) (l : DataFrame) :
  Permutation (insert_desc b key r l) (r :: l).
Proof.
  induction l as [| y t IH]; simpl.
  - apply Permutation_refl.
  - destruct (if b then key r <=? key y else key r <? key y).
    + eapply perm_trans; [apply perm_skip, IH | apply perm_swap].
    + apply Permutation_refl.
Qed.

Lemma insert_desc_sorted (b : bool) (key : SubjectRecord -> Z)
  (r : SubjectRecord) (l : DataFrame) :
  StronglySorted (fun a c => key c <= key a) l ->
  StronglySorted (fun a c => key c <= key a) (insert_desc b key r l).
Proof.
  induction 1 as [| y t Hsorted IH Hall]; simpl.
  - constructor; constructor.
  - destruct (if b then key r <=? key y else key r <? key y) eqn:Hcmp.
    + constructor; [exact IH |].
      assert (Hry : key r <= key y)
        by (destruct b; [apply Z.leb_le in Hcmp | apply Z.ltb_lt in Hcmp]; lia).
      apply (Permutation_Forall (Permutation_sym (insert_desc_perm b key r t))).
      constructor; assumption.
    + assert (Hyr : key y <= key r)
        by (destruct b; [apply Z.leb_gt in Hcmp | apply Z.ltb_ge in Hcmp]; lia).
      constructor; [constructor; assumption |].
      constructor; [exact Hyr |].
      eapply Forall_impl; [| exact Hall].
      cbn. intros a Ha. lia.
Qed.

(** Both insertion sorts do what [sort_values] is documented to do. *)
Lemma insertion_sort_contract (b : bool) :
  sort_values_contract (insertion_sort_desc b).
Proof.
  split; intros key df; induction df as [| r df IH]; simpl.
  - apply perm_nil.
  - eapply perm_trans; [apply insert_desc_perm | apply perm_skip, IH].
  - constructor.
  - apply insert_desc_sorted, IH.
Qed.

Lemma filter_insert_front (key : SubjectRecord -> Z) (v : Z)
  (r : SubjectRecord) (l : DataFrame) :
  filter (fun a => key a =? v) (insert_desc false key r l)
  = filter (fun a => key a =? v) (r :: l).
Proof.
  induction l as [| y t IH]; [reflexivity |].
  cbn [insert_desc].
  destruct (key r <? key y) eqn:Hcmp; [| reflexivity].
  apply Z.ltb_lt in Hcmp.
  cbn [filter] in *. rewrite IH.
  destruct (key r =? v) eqn:Er; [| reflexivity].
  apply Z.eqb_eq in Er.
  replace (key y =? v) with false by (symmetry; apply Z.eqb_neq; lia).
  reflexivity.
Qed.

(** The front-inserting sort is stable. *)
Lemma stable_sort_keeps_tie_order (key : SubjectRecord -> Z) (df : DataFrame) :
  keeps_tie_order key (stable_sort_desc key df) df.
Proof.
  intros v. induction df as [| r df IH]; [reflexivity |].
  unfold stable_sort_desc, insertion_sort_desc in *. cbn [fold_right].
  rewrite filter_insert_front. cbn [filter]. now rewrite IH.
Qed.

















(** ** The pages *)

Section PagesSpec.

Variable sort_values_desc : (SubjectRecord -> Z) -> DataFrame -> DataFrame.
Hypothesis sort_ok : sort_values_contract sort_values_desc.

Variable RandomState : Type.
Variable poisson : Q -> nat -> RandomState -> list Z * RandomState.
Variable uniform : Q -> Q -> nat -> RandomState -> list Q * RandomState.

(** How many variates have been drawn since the generator was seeded: a
    draw never gives any back, and [uniform] takes one for each sample. *)
Variable drawn : RandomState -> nat.
Hypothesis poisson_drawn :
  forall lam n st, (drawn st <= drawn (snd (poisson lam n st)))%nat.
Hypothesis uniform_drawn :
  forall low high n st,
    (drawn st + n <= drawn (snd (uniform low high n st)))%nat.

Variable DF : DataFrame.
Variable COHORT : list Q.

Local Abbreviation top_by_metric := (topByMetric sort_values_desc DF).
Local Abbreviation bucket_table := (bucketTable DF).
Local Abbreviation detail := (page_detail RandomState poisson uniform DF).
Local Abbreviation overview := (page_overview sort_values_desc DF COHORT).
Local Abbreviation render_page :=
  (render sort_values_desc RandomState poisson uniform DF COHORT).
Local Abbreviation route_path :=
  (route sort_values_desc RandomState poisson uniform DF COHORT).

(** C2 (as the code has it).  The table of a bucket page has one row for
    each row of [DF], in the order of [DF], with the scientist, field,
    award year and metric of that row; they are the rows of the chart in
    another order. *)
Theorem bucketTable_insertion_order (k : MetricCol) :
  List.length (bucket_table k) = List.length DF /\
  (forall i r,
      nth_error DF i = Some r ->
      nth_error (bucket_table k) i
      = Some {| row_Scientist := Scientist r;
                row_Field := Field r;
                row_Award_Year := Award_Year r;
                row_metric := metric k r |}) /\
  Permutation (bucket_table k) (map (bucket_row k) (top_by_metric k)).
Proof.
  unfold bucketTable. split; [apply length_map |]. split.
  - intros i r Hi. now rewrite nth_error_map, Hi.
  - apply Permutation_map, Permutation_sym.
    destruct sort_ok as [Hperm _]. apply Hperm.
Qed.

Lemma rows_named_nil (scientist : string) :
  (forall r, In r DF -> Scientist r <> scientist) ->
  rows_named DF scientist = [].
Proof.
  intros Hnone. unfold rows_named.
  induction DF as [| r df IH]; [reflexivity |].
  cbn [filter].
  destruct (String.eqb_spec (Scientist r) scientist) as [E | _].
  - exfalso. apply (Hnone r); [now left | exact E].
  - apply IH. intros r' Hr'. apply Hnone. now right.
Qed.

Lemma rows_named_first (scientist : string) (pre post : DataFrame)
  (r : SubjectRecord) :
  DF = pre ++ r :: post ->
  Scientist r = scientist ->
  (forall r', In r' pre -> Scientist r' <> scientist) ->
  exists rest, rows_named DF scientist = r :: rest.
Proof.
  intros -> Hr Hpre. unfold rows_named.
  induction pre as [| a pre IH]; cbn [app filter].
  - rewrite (proj2 (String.eqb_eq _ _) Hr). eauto.
  - destruct (String.eqb_spec (Scientist a) scientist) as [E | _].
    + exfalso. apply (Hpre a); [now left | exact E].
    + apply IH. intros r' Hr'. apply Hpre. now right.
Qed.

Lemma rows_named_in (scientist : string) (r : SubjectRecord) (rest : DataFrame) :
  rows_named DF scientist = r :: rest ->
  In r DF /\ Scientist r = scientist.
Proof.
  intros H.
  assert (Hin : In r (rows_named DF scientist)) by (rewrite H; now left).
  apply filter_In in Hin as [Hin Hname].
  split; [exact Hin | now apply String.eqb_eq].
Qed.

Lemma page_detail_found (scientist : string) (r : SubjectRecord)
  (rest : DataFrame) (st : RandomState) :
  rows_named DF scientist = r :: rest ->
  exists view,
    detail scientist st
    = (DetailPage view,
       snd (uniform (8 # 10) (41 # 10) 5
              (snd (poisson (6 # 10)
                      (List.length (range (First_Publication_Year r) (Award_Year r + 4)))
                      (snd (poisson (12 # 10)
                              (List.length (range (First_Publication_Year r) (Award_Year r + 4)))
                              st)))))) /\
    subject view = r /\
    df_break view = bucket_breakdown r.
Proof.
  intros Hrows. unfold page_detail. rewrite Hrows.
  unfold bind, ret.
  destruct (poisson (12 # 10) _ st) as [pubs st1]. cbn [snd].
  destruct (poisson (6 # 10) _ st1) as [grants st2]. cbn [snd].
  destruct (uniform (8 # 10) (41 # 10) 5 st2) as [orcr st3]. cbn [snd].
  eexists. split; [reflexivity |]. split; reflexivity.
Qed.

(** C6.  [page_detail] looks the name up by equality on the [Scientist]
    column: with no such row it returns the "Scientist not found" page and
    leaves the generator alone; with such a row it returns the detail page
    of a row of [DF] that bears the name. *)
Theorem page_detail_lookup (scientist : string) (st : RandomState) :
  ((forall r, In r DF -> Scientist r <> scientist) ->
   detail scientist st = (NotFoundPage "Scientist not found", st)) /\
  ((exists r, In r DF /\ Scientist r = scientist) ->
   exists view st',
     detail scientist st = (DetailPage view, st') /\
     In (subject view) DF /\
     Scientist (subject view) = scientist).
Proof.
  split.
  - intros Hnone. unfold page_detail.
    now rewrite (rows_named_nil scientist Hnone).
  - intros (r & Hin & Hname).
    destruct (rows_named DF scientist) as [| r0 rest] eqn:Hrows.
    + exfalso.
      assert (Hr : In r (rows_named DF scientist)).
      { apply filter_In. split; [exact Hin | now apply String.eqb_eq]. }
      now rewrite Hrows in Hr.
    + destruct (page_detail_found scientist r0 rest st Hrows)
        as (view & Hpage & Hsubject & _).
      destruct (rows_named_in scientist r0 rest Hrows) as [Hin0 Hname0].
      exists view. eexists. split; [exact Hpage |].
      rewrite Hsubject. split; assumption.
Qed.

(** C7.  When [r] is the first row of [DF] bearing the name, the bucket
    breakdown of the detail page is AIS, EIS, HIS, SIS in that order, each
    with the score of [r]. *)
Theorem page_detail_breakdown (scientist : string) (pre post : DataFrame)
  (r : SubjectRecord) (st : RandomState)
  (Hsplit : DF = pre ++ r :: post)
  (Hname : Scientist r = scientist)
  (Hfirst : forall r', In r' pre -> Scientist r' <> scientist) :
  exists view st',
    detail scientist st = (DetailPage view, st') /\
    subject view = r /\
    df_break view
    = [ ("AIS", AIS r); ("EIS", EIS r); ("HIS", HIS r); ("SIS", SIS r) ].
Proof.
  destruct (rows_named_first scientist pre post r Hsplit Hname Hfirst)
    as [rest Hrows].
  destruct (page_detail_found scientist r rest st Hrows)
    as (view & Hpage & Hsubject & Hbreak).
  exists view. eexists. split; [exact Hpage |].
  split; [exact Hsubject | exact Hbreak].
Qed.

(** C4.  A path that is [None], or that neither begins with [/detail/]
    nor is one of [/ais], [/eis], [/his], [/sis], [/explorer], selects
    Overview, and [route] returns the overview page for it. *)
Theorem route_fallback_overview (path : option string)
  (Hdetail : forall p, path = Some p -> PyStr.startswith "/detail/" p = false)
  (Hais : path <> Some "/ais")
  (Heis : path <> Some "/eis")
  (Hhis : path <> Some "/his")
  (Hsis : path <> Some "/sis")
  (Hexplorer : path <> Some "/explorer") :
  resolve path = Overview /\
  forall st, route_path path st = (overview, st).
Proof.
  assert (Hsel : resolve path = Overview).
  { destruct path as [p |]; [| reflexivity].
    unfold resolve.
    rewrite (Hdetail p eq_refl).
    destruct (String.eqb_spec p "/"); [reflexivity |].
    destruct (String.eqb_spec p "/ais"); [congruence |].
    destruct (String.eqb_spec p "/eis"); [congruence |].
    destruct (String.eqb_spec p "/his"); [congruence |].
    destruct (String.eqb_spec p "/sis"); [congruence |].
    destruct (String.eqb_spec p "/explorer"); [congruence |].
    reflexivity. }
  split; [exact Hsel |].
  intros st. unfold route. now rewrite Hsel.
Qed.

(** C10 (as the code has it).  [route] renders the selection [resolve]
    computes from the path alone.  When the selection is not the detail of
    a scientist in [DF], the page does not depend on the generator and the
    generator is left as it was; when it is, [route] draws from the
    generator, at least the five variates of the publications table. *)
Theorem route_effects (path : option string) :
  (forall st, route_path path st = render_page (resolve path) st) /\
  ((forall name, resolve path = Detail name -> rows_named DF name = []) ->
   exists page, forall st, route_path path st = (page, st)) /\
  (forall name r rest,
      resolve path = Detail name ->
      rows_named DF name = r :: rest ->
      forall st, (drawn st + 5 <= drawn (snd (route_path path st)))%nat).
Proof.
  split; [reflexivity |]. split.
  - intros Hnone. unfold route.
    destruct (resolve path) as [| title k | | name] eqn:Hsel;
      try (eexists; intros st; reflexivity).
    exists (NotFoundPage "Scientist not found"). intros st.
    cbn [render]. unfold page_detail.
    now rewrite (Hnone name eq_refl).
  - intros name r rest Hsel Hrows st. unfold route. rewrite Hsel.
    cbn [render].
    destruct (page_detail_found name r rest st Hrows) as (view & Hpage & _).
    rewrite Hpage. cbn [snd].
    eapply Nat.le_trans; [| apply uniform_drawn].
    apply Nat.add_le_mono_r.
    eapply Nat.le_trans; [| apply poisson_drawn].
    apply poisson_drawn.
Qed.

End PagesSpec.

(** ** The statements at concrete frames *)

Lemma bucketTable_insertion_order_witness :
  sort_values_contract stable_sort_desc /\
  List.length (bucketTable Samples.frame col_EIS) = List.length Samples.frame /\
  (forall i r,
      nth_error Samples.frame i = Some r ->
      nth_error (bucketTable Samples.frame col_EIS) i
      = Some {| row_Scientist := Scientist r;
                row_Field := Field r;
                row_Award_Year := Award_Year r;
                row_metric := metric col_EIS r |}) /\
  Permutation (bucketTable Samples.frame col_EIS)
    (map (bucket_row col_EIS)
       (topByMetric stable_sort_desc Samples.frame col_EIS)).
Proof.
  split.
  - apply insertion_sort_contract.
  - exact (bucketTable_insertion_order stable_sort_desc
             (insertion_sort_contract false) Samples.frame col_EIS).
Defined.

(** C2 as the specification words it fails: the table is in the order of
    [DF], and no sort puts the chart in that order when a later row has the
    larger metric. *)
Lemma bucketTable_order_cex :
  map row_Scientist (bucketTable Samples.frame col_AIS)
    = [ "Dr. Sarah Chen"; "Dr. Emily Johnson"; "Dr. James Washington" ] /\
  forall sv,
    sort_values_contract sv ->
    map row_Scientist (bucketTable Samples.frame col_AIS)
    <> map Scientist (topByMetric sv Samples.frame col_AIS).
Proof.
  split; [reflexivity |].
  intros sv [Hperm Hsorted] Heq. unfold topByMetric in Heq.
  specialize (Hperm (metric col_AIS) Samples.frame).
  specialize (Hsorted (metric col_AIS) Samples.frame).
  destruct (sv (metric col_AIS) Samples.frame) as [| a [| b [| c [| d l]]]];
    try discriminate Heq.
  cbn in Heq. injection Heq as Ha Hb Hc.
  assert (Hina : In a Samples.frame)
    by (apply (Permutation_in _ Hperm); now left).
  assert (Hinc : In c Samples.frame)
    by (apply (Permutation_in _ Hperm); right; right; now left).
  assert (Hac : metric col_AIS c <= metric col_AIS a).
  { inversion Hsorted as [| ? ? _ Hall]; subst.
    rewrite Forall_forall in Hall. apply Hall. right; now left. }
  assert (Ea : a = Samples.chen).
  { destruct Hina as [<- | [<- | [<- | []]]];
      [reflexivity | discriminate Ha | discriminate Ha]. }
  assert (Ec : c = Samples.washington).
  { destruct Hinc as [<- | [<- | [<- | []]]];
      [discriminate Hc | discriminate Hc | reflexivity]. }
  subst a c. cbn in Hac. lia.
Qed.

Lemma page_detail_lookup_witness :
  (forall r, In r Samples.frame -> Scientist r <> "Does Not Exist") /\
  page_detail CounterRng.RandomState CounterRng.poisson CounterRng.uniform
    Samples.frame "Does Not Exist" 0%nat
  = (NotFoundPage "Scientist not found", 0%nat).
Proof.
  assert (Hnone : forall r, In r Samples.frame -> Scientist r <> "Does Not Exist").
  { intros r [<- | [<- | [<- | []]]]; discriminate. }
  split; [exact Hnone |].
  exact (proj1 (page_detail_lookup CounterRng.RandomState CounterRng.poisson
                  CounterRng.uniform Samples.frame "Does Not Exist" 0%nat)
           Hnone).
Defined.

Lemma page_detail_breakdown_witness :
  exists view st',
    page_detail CounterRng.RandomState CounterRng.poisson CounterRng.uniform
      Samples.frame "Dr. Emily Johnson" 0%nat
    = (DetailPage view, st') /\
    subject view = Samples.johnson /\
    df_break view = [ ("AIS", 32); ("EIS", 21); ("HIS", 19); ("SIS", 9) ].
Proof.
  apply (page_detail_breakdown CounterRng.RandomState CounterRng.poisson
           CounterRng.uniform Samples.frame "Dr. Emily Johnson"
           [Samples.chen] [Samples.washington] Samples.johnson 0%nat).
  - reflexivity.
  - reflexivity.
  - intros r' [<- | []]. discriminate.
Defined.

Lemma route_fallback_overview_witness :
  resolve (Some "/") = Overview /\
  resolve (Some "") = Overview /\
  resolve None = Overview /\
  resolve (Some "/nonsense") = Overview /\
  forall st,
    route stable_sort_desc CounterRng.RandomState CounterRng.poisson
      CounterRng.uniform Samples.frame [] (Some "/nonsense") st
    = (page_overview stable_sort_desc Samples.frame [], st).
Proof.
  assert (H : forall p : string,
             PyStr.startswith "/detail/" p = false ->
             String.eqb p "/ais" = false -> String.eqb p "/eis" = false ->
             String.eqb p "/his" = false -> String.eqb p "/sis" = false ->
             String.eqb p "/explorer" = false ->
             resolve (Some p) = Overview /\
             forall st,
               route stable_sort_desc CounterRng.RandomState CounterRng.poisson
                 CounterRng.uniform Samples.frame [] (Some p) st
               = (page_overview stable_sort_desc Samples.frame [], st)).
  { intros p Hd H1 H2 H3 H4 H5.
    apply (route_fallback_overview stable_sort_desc CounterRng.RandomState
             CounterRng.poisson CounterRng.uniform Samples.frame [] (Some p)).
    - intros q [= <-]. exact Hd.
    - intros [= ->]. discriminate H1.
    - intros [= ->]. discriminate H2.
    - intros [= ->]. discriminate H3.
    - intros [= ->]. discriminate H4.
    - intros [= ->]. discriminate H5. }
  split; [apply (H "/"); reflexivity |].
  split; [apply (H ""); reflexivity |].
  split; [reflexivity |].
  apply (H "/nonsense"); reflexivity.
Defined.

Lemma route_effects_witness :
  (exists page,
      forall st,
        route stable_sort_desc CounterRng.RandomState CounterRng.poisson
          CounterRng.uniform Samples.frame [] (Some "/ais") st
        = (page, st)) /\
  (forall st,
      (CounterRng.drawn st + 5
       <= CounterRng.drawn
            (snd (route stable_sort_desc CounterRng.RandomState
                    CounterRng.poisson CounterRng.uniform Samples.frame []
                    (Some "/detail/Dr.%20Sarah%20Chen") st)))%nat).
Proof.
  assert (Hp : forall lam n st,
             (CounterRng.drawn st
              <= CounterRng.drawn (snd (CounterRng.poisson lam n st)))%nat)
    by (intros; unfold CounterRng.drawn, CounterRng.poisson; cbn [snd]; lia).
  assert (Hu : forall low high n st,
             (CounterRng.drawn st + n
              <= CounterRng.drawn (snd (CounterRng.uniform low high n st)))%nat)
    by (intros; unfold CounterRng.drawn, CounterRng.uniform; cbn [snd]; lia).
  split.
  - apply (route_effects stable_sort_desc CounterRng.RandomState
             CounterRng.poisson CounterRng.uniform CounterRng.drawn Hp Hu
             Samples.frame [] (Some "/ais")).
    intros name [=].
  - apply (proj2 (proj2 (route_effects stable_sort_desc CounterRng.RandomState
             CounterRng.poisson CounterRng.uniform CounterRng.drawn Hp Hu
             Samples.frame [] (Some "/detail/Dr.%20Sarah%20Chen")))
             "Dr. Sarah Chen" Samples.chen []); reflexivity.
Defined.

(** C10 as the specification words it fails: resolving the detail path of
    a scientist in the frame advances the generator, and resolving it again
    gives another page. *)
Lemma route_effects_cex :
  let go :=
    route stable_sort_desc CounterRng.RandomState CounterRng.poisson
      CounterRng.uniform Samples.frame []
      (Some "/detail/Dr.%20Sarah%20Chen") in
  resolve (Some "/detail/Dr.%20Sarah%20Chen") = Detail "Dr. Sarah Chen" /\
  snd (go 0%nat) = 21%nat /\
  snd (go 0%nat) <> 0%nat /\
  fst (go 0%nat) <> fst (go (snd (go 0%nat))).
Proof.
  cbv zeta.
  split; [reflexivity |].
  split; [reflexivity |].
  split; [discriminate |].
  intros Heq.
  assert (Hpubs :
    forall p q, p = q ->
      match p, q with
      | DetailPage v, DetailPage w =>
          tl_Publications (timeline_df v) = tl_Publications (timeline_df w)
      | _, _ => True
      end) by (intros p q <-; destruct p; auto).
  apply Hpubs in Heq. vm_compute in Heq. discriminate Heq.
Qed.

(** * Further properties of the code *)

(** ** What [resolve] selects, path by path *)

Lemma resolve_cases (p : string) :
  (p = "/" /\ resolve (Some p) = Overview) \/
  (PyStr.startswith "/detail/" p = true /\
   resolve (Some p)
   = Detail (PyStr.replace "%20" " "
               (PyStr.last_segment (PyStr.split "/detail/" p)))) \/
  (p = "/ais" /\ resolve (Some p) = Bucket "Academic Impact (AIS)" col_AIS) \/
  (p = "/eis" /\ resolve (Some p) = Bucket "Economic Impact (EIS)" col_EIS) \/
  (p = "/his" /\ resolve (Some p) = Bucket "Health Impact (HIS)" col_HIS) \/
  (p = "/sis" /\ resolve (Some p) = Bucket "Social Impact (SIS)" col_SIS) \/
  (p = "/explorer" /\ resolve (Some p) = Explorer) \/
  (PyStr.startswith "/detail/" p = false /\
   ~ In p ["/ais"; "/eis"; "/his"; "/sis"; "/explorer"] /\
   resolve (Some p) = Overview).
Proof.
  unfold resolve.
  destruct (String.eqb_spec p "/") as [-> | _]; [now left |].
  destruct (PyStr.startswith "/detail/" p) eqn:Hd; [right; now left |].
  destruct (String.eqb_spec p "/ais") as [-> | N1]; [do 2 right; now left |].
  destruct (String.eqb_spec p "/eis") as [-> | N2]; [do 3 right; now left |].
  destruct (String.eqb_spec p "/his") as [-> | N3]; [do 4 right; now left |].
  destruct (String.eqb_spec p "/sis") as [-> | N4]; [do 5 right; now left |].
  destruct (String.eqb_spec p "/explorer") as [-> | N5];
    [do 6 right; now left |].
  do 7 right. repeat split.
  intros [E | [E | [E | [E | [E | []]]]]]; congruence.
Qed.

Lemma resolve_Detail_inv (path : option string) (name : string) :
  resolve path = Detail name ->
  exists p,
    path = Some p /\
    PyStr.startswith "/detail/" p = true /\
    name = PyStr.replace "%20" " "
             (PyStr.last_segment (PyStr.split "/detail/" p)).
Proof.
  destruct path as [p |]; [| discriminate].
  intros H. exists p. split; [reflexivity |].
  destruct (resolve_cases p)
    as [[_ E] | [[Hd E] | [[_ E] | [[_ E] | [[_ E] | [[_ E] | [[_ E] | (_ & _ & E)]]]]]]];
    rewrite E in H; try discriminate H.
  injection H as <-. now split.
Qed.

(** X1.  The explorer and the four bucket pages are reached by exactly one path
    each, and a bucket page always gets the title and the column that go
    with its path. *)
Theorem resolve_known_pages (path : option string) :
  (resolve path = Explorer <-> path = Some "/explorer") /\
  (forall title k,
      resolve path = Bucket title k <->
      (path = Some "/ais" /\ title = "Academic Impact (AIS)" /\ k = col_AIS) \/
      (path = Some "/eis" /\ title = "Economic Impact (EIS)" /\ k = col_EIS) \/
      (path = Some "/his" /\ title = "Health Impact (HIS)" /\ k = col_HIS) \/
      (path = Some "/sis" /\ title = "Social Impact (SIS)" /\ k = col_SIS)).
Proof.
  split; [| intros title k]; (split; [intros H | ]).
  - destruct path as [p |]; [| discriminate].
    destruct (resolve_cases p)
      as [[_ E] | [[Hd E] | [[_ E] | [[_ E] | [[_ E] | [[_ E] | [[-> E] | (_ & _ & E)]]]]]]];
      rewrite E in H; try discriminate H.
    reflexivity.
  - intros ->. reflexivity.
  - destruct path as [p |]; [| discriminate].
    destruct (resolve_cases p)
      as [[_ E] | [[Hd E] | [[-> E] | [[-> E] | [[-> E] | [[-> E] | [[_ E] | (_ & _ & E)]]]]]]];
      rewrite E in H; try discriminate H; injection H as <- <-.
    + now left.
    + right; now left.
    + do 2 right; now left.
    + do 3 right; now repeat split.
  - intros [(-> & -> & ->) | [(-> & -> & ->) | [(-> & -> & ->) | (-> & -> & ->)]]];
      reflexivity.
Qed.

(** X2.  A path selects a detail page exactly when it begins with [/detail/],
    whatever follows: nothing after that prefix falls through to another
    page. *)
Theorem resolve_detail_iff (path : option string) :
  (exists name, resolve path = Detail name) <->
  (exists p, path = Some p /\ PyStr.startswith "/detail/" p = true).
Proof.
  split.
  - intros [name H].
    destruct (resolve_Detail_inv path name H) as (p & -> & Hd & _).
    now exists p.
  - intros (p & -> & Hd). unfold resolve.
    destruct (String.eqb_spec p "/") as [-> | _]; [discriminate Hd |].
    rewrite Hd. eauto.
Qed.

(** X3.  The links of the navigation bar lead to the overview, the explorer
    and the four bucket pages, and every path that selects the explorer or
    a bucket page is one of them. *)
Theorem topnav_covers_routes (p : string) :
  In p (map link_href topnav) <->
  p = "/" \/
  resolve (Some p) = Explorer \/
  (exists title k, resolve (Some p) = Bucket title k).
Proof.
  split.
  - cbn. intros [<- | [<- | [<- | [<- | [<- | [<- | []]]]]]];
      first [ now left
            | right; left; reflexivity
            | right; right; eexists; eexists; reflexivity ].
  - intros H.
    destruct (resolve_cases p)
      as [[-> E] | [[Hd E] | [[-> E] | [[-> E] | [[-> E] | [[-> E] | [[-> E] | (Hd & Hn & E)]]]]]]];
      cbn; auto 10.
    + destruct H as [-> | [H | (t & k & H)]]; [auto | |];
        rewrite E in H; discriminate H.
    + destruct H as [-> | [H | (t & k & H)]]; [auto | |];
        rewrite E in H; discriminate H.
Qed.

(** ** What is left of [%20] after decoding *)

Module DecodeFacts.
Import PyStr.

Lemma keeps_no_0 (s : string) :
  startswith "0" s = false ->
  startswith "0" (replace_skip "%20" " " 0 s) = false.
Proof.
  destruct s as [| d s]; [reflexivity |].
  cbn [replace_skip].
  destruct (startswith "%20" (String d s)); [reflexivity |].
  cbn [startswith]. auto.
Qed.

Lemma keeps_no_20 (s : string) :
  startswith "20" s = false ->
  startswith "20" (replace_skip "%20" " " 0 s) = false.
Proof.
  destruct s as [| d s]; [reflexivity |].
  cbn [replace_skip].
  destruct (startswith "%20" (String d s)); [reflexivity |].
  cbn [startswith].
  destruct (Ascii.eqb "2" d); [| reflexivity].
  cbn [andb]. apply keeps_no_0.
Qed.

Lemma keeps_no_pct20 (c : ascii) (s : string) :
  startswith "%20" (String c s) = false ->
  startswith "%20" (String c (replace_skip "%20" " " 0 s)) = false.
Proof.
  cbn [startswith].
  destruct (Ascii.eqb "%" c); [| reflexivity].
  cbn [andb]. apply keeps_no_20.
Qed.

Lemma replace_skip_no_pct20 (s : string) :
  forall skip, occurs "%20" (replace_skip "%20" " " skip s) = false.
Proof.
  induction s as [| c s IH]; intros skip; [reflexivity |].
  destruct skip as [| k]; [| apply IH].
  cbn [replace_skip].
  destruct (startswith "%20" (String c s)) eqn:Hhere.
  - change (" " ++ ?t)%string with (String " " t).
    cbn [occurs]. rewrite IH. reflexivity.
  - cbn [occurs]. rewrite IH, (keeps_no_pct20 c s Hhere). reflexivity.
Qed.

(** No [%20] is left in a decoded string. *)
Lemma replace_no_pct20 (s : string) :
  occurs "%20" (replace "%20" " " s) = false.
Proof. apply replace_skip_no_pct20. Qed.

End DecodeFacts.

(** X4.  The name a detail path hands to [page_detail] never holds [%20], so
    decoding it once more changes nothing. *)
Theorem resolve_detail_decoded (path : option string) (name : string)
  (Hsel : resolve path = Detail name) :
  PyStr.occurs "%20" name = false /\
  PyStr.replace "%20" " " name = name.
Proof.
  destruct (resolve_Detail_inv path name Hsel) as (p & _ & _ & ->).
  pose proof (DecodeFacts.replace_no_pct20
                (PyStr.last_segment (PyStr.split "/detail/" p))) as Hfree.
  split; [exact Hfree |].
  now apply PyStrFacts.replace_free.
Qed.

Lemma resolve_detail_decoded_witness :
  resolve (Some "/detail/A%%2020B%20C") = Detail "A% 20B C" /\
  PyStr.occurs "%20" "A% 20B C" = false /\
  PyStr.replace "%20" " " "A% 20B C" = "A% 20B C".
Proof.
  split; [reflexivity |].
  exact (resolve_detail_decoded (Some "/detail/A%%2020B%20C") "A% 20B C"
           eq_refl).
Defined.

(** X5.  For a label that holds no [/detail/], the click target resolves back
    to the label exactly when the label holds no [%20]: a label with a
    literal [%20] comes back with a space in its place. *)
Theorem click_roundtrip_iff (name : string)
  (Hsep : PyStr.occurs "/detail/" name = false) :
  resolve (Some ("/detail/" ++ name)%string) = Detail name <->
  PyStr.occurs "%20" name = false.
Proof.
  split.
  - intros H. rewrite resolve_detail_prefix in H. injection H as H.
    rewrite <- H. apply DecodeFacts.replace_no_pct20.
  - now apply resolve_click_target.
Qed.

Lemma click_roundtrip_iff_witness :
  PyStr.occurs "/detail/" "A%20B" = false /\
  PyStr.occurs "%20" "A%20B" = true /\
  resolve (Some "/detail/A%20B") <> Detail "A%20B".
Proof.
  split; [reflexivity |]. split; [reflexivity |].
  intros H.
  apply (proj1 (click_roundtrip_iff "A%20B" eq_refl)) in H.
  discriminate H.
Defined.

(** ** Arrays *)

Lemma range_length (a b : Z) :
  List.length (range a b) = Z.to_nat (b - a).
Proof. unfold range. now rewrite length_map, length_seq. Qed.

Lemma range_nth (a b : Z) (i : nat) :
  (i < Z.to_nat (b - a))%nat ->
  nth_error (range a b) i = Some (a + Z.of_nat i).
Proof.
  intros Hi. unfold range.
  rewrite nth_error_map, nth_error_seq.
  destruct (Nat.ltb_spec i (Z.to_nat (b - a))) as [_ | Hge]; [| lia].
  reflexivity.
Qed.

Lemma cumsum_from_length (acc : Z) (xs : list Z) :
  List.length (cumsum_from acc xs) = List.length xs.
Proof.
  revert acc. induction xs as [| v xs IH]; intros acc; cbn;
    [reflexivity | now rewrite IH].
Qed.

Lemma cumsum_from_bounds (xs : list Z) :
  Forall (fun v => 0 <= v) xs ->
  forall acc,
    Forall (fun y => acc <= y) (cumsum_from acc xs) /\
    StronglySorted Z.le (cumsum_from acc xs).
Proof.
  induction 1 as [| v xs Hv Hxs IH]; intros acc; cbn.
  - split; constructor.
  - destruct (IH (acc + v)) as [Hlow Hsorted].
    split.
    + constructor; [lia |].
      eapply Forall_impl; [| exact Hlow]. cbn. intros y Hy. lia.
    + constructor; assumption.
Qed.

Lemma clip_at_0_noop (ys : list Z) :
  Forall (fun y => 0 <= y) ys -> map (Z.max 0) ys = ys.
Proof.
  induction 1 as [| y ys Hy Hys IH]; cbn; [reflexivity |].
  rewrite IH. f_equal. lia.
Qed.

(** ** More on the pages *)

Section PagesMore.

Variable sort_values_desc : (SubjectRecord -> Z) -> DataFrame -> DataFrame.
Hypothesis sort_ok : sort_values_contract sort_values_desc.

Variable RandomState : Type.
Variable poisson : Q -> nat -> RandomState -> list Z * RandomState.
Variable uniform : Q -> Q -> nat -> RandomState -> list Q * RandomState.

(** A draw of [size] variates returns that many, and a Poisson variate
    is never negative. *)
Hypothesis poisson_size :
  forall lam n st, List.length (fst (poisson lam n st)) = n.
Hypothesis poisson_nonneg :
  forall lam n st, Forall (fun v => 0 <= v) (fst (poisson lam n st)).
Hypothesis uniform_size :
  forall low high n st, List.length (fst (uniform low high n st)) = n.

Variable DF : DataFrame.
Variable COHORT : list Q.

Local Abbreviation detail := (page_detail RandomState poisson uniform DF).
Local Abbreviation route_path :=
  (route sort_values_desc RandomState poisson uniform DF COHORT).
Local Abbreviation scores := (sofea_score_bar sort_values_desc DF).

Lemma rows_named_some (name : string) (r : SubjectRecord) :
  In r DF -> Scientist r = name ->
  exists r0 rest, rows_named DF name = r0 :: rest.
Proof.
  intros Hin Hname.
  destruct (rows_named DF name) as [| r0 rest] eqn:Hrows; [| eauto].
  assert (Hr : In r (rows_named DF name)).
  { apply filter_In. split; [exact Hin | now apply String.eqb_eq]. }
  now rewrite Hrows in Hr.
Qed.

(** The page [page_detail] builds for the first row it finds, written
    out draw by draw. *)
Lemma page_detail_view (scientist : string) (r : SubjectRecord)
  (rest : DataFrame) (st : RandomState) :
  rows_named DF scientist = r :: rest ->
  let n := List.length (range (First_Publication_Year r) (Award_Year r + 4)) in
  let d1 := poisson (12 # 10) n st in
  let d2 := poisson (6 # 10) n (snd d1) in
  let d3 := uniform (8 # 10) (41 # 10) 5 (snd d2) in
  detail scientist st
  = (DetailPage
       {| subject := r;
          df_break := bucket_breakdown r;
          timeline_df :=
            {| tl_Year := range (First_Publication_Year r) (Award_Year r + 4);
               tl_Publications := cumsum (fst d1);
               tl_Grants := map (Z.max 0) (cumsum (fst d2)) |};
          publications :=
            {| pub_Year :=
                 map (fun i => First_Publication_Year r + i) (range 0 5);
               pub_Journal :=
                 [ "Nature"; "Cancer Cell"; "Cell Reports"; "PNAS";
                   "Science Advances" ];
               pub_oRCR := map (np_round 2) (fst d3) |} |},
     snd d3).
Proof.
  intros Hrows n d1 d2 d3. subst d3 d2 d1 n.
  unfold page_detail. rewrite Hrows. unfold bind, ret.
  destruct (poisson (12 # 10) _ st) as [pubs st1]. cbn [fst snd].
  destruct (poisson (6 # 10) _ st1) as [grants st2]. cbn [fst snd].
  destruct (uniform (8 # 10) (41 # 10) 5 st2) as [orcr st3].
  reflexivity.
Qed.

(** X7.  A detail path whose decoded name no row bears gets the "Scientist not
    found" page: [route] neither falls back to the overview nor touches
    the generator. *)
Theorem route_unknown_detail (rest : string) (st : RandomState)
  (Hnone :
     forall r, In r DF ->
       Scientist r
       <> PyStr.replace "%20" " "
            (PyStr.last_segment (PyStr.split "/detail/" rest))) :
  route_path (Some ("/detail/" ++ rest)%string) st
  = (NotFoundPage "Scientist not found", st).
Proof.
  unfold route. rewrite resolve_detail_prefix. cbn [render].
  unfold page_detail.
  now rewrite (rows_named_nil DF _ Hnone).
Qed.

(** X9.  Drill-down: a click on any bar of the overview chart whose label
    holds neither [/detail/] nor [%20] leads, through [bar_click] and
    [route], to the detail page of a row of [DF] with that label. *)
Theorem bar_drilldown (label : string) (score : Z) (more : list Point)
  (st : RandomState)
  (Hbar : In (label, score) scores)
  (Hsep : PyStr.occurs "/detail/" label = false)
  (Hpct : PyStr.occurs "%20" label = false) :
  exists href view st',
    bar_click (Some ({| x := label |} :: more)) = Ok href /\
    route_path (Some href) st = (DetailPage view, st') /\
    In (subject view) DF /\
    Scientist (subject view) = label.
Proof.
  destruct sort_ok as [Hperm _].
  unfold sofea_score_bar in Hbar.
  apply in_map_iff in Hbar as (r & Hr & Hin).
  injection Hr as Hname _.
  apply (Permutation_in _ (Hperm _ _)) in Hin.
  destruct (rows_named_some label r Hin Hname) as (r0 & rest & Hrows).
  destruct (rows_named_in DF label r0 rest Hrows) as [Hin0 Hname0].
  exists ("/detail/" ++ label)%string. eexists. eexists.
  split; [reflexivity |].
  unfold route. rewrite (resolve_click_target label Hsep Hpct). cbn [render].
  rewrite (page_detail_view label r0 rest st Hrows). cbn zeta.
  split; [reflexivity |]. cbn [subject]. now split.
Qed.

(** X10.  The timeline of a detail page runs year by year from the first
    publication year to three years after the award, its three columns
    have one length, and the publications table has five rows starting at
    the first publication year: both frames are well formed. *)
Theorem page_detail_tables (scientist : string) (r : SubjectRecord)
  (rest : DataFrame) (st : RandomState)
  (Hrows : rows_named DF scientist = r :: rest) :
  exists view st',
    detail scientist st = (DetailPage view, st') /\
    List.length (tl_Year (timeline_df view))
    = Z.to_nat (Award_Year r + 4 - First_Publication_Year r) /\
    (forall i,
        (i < List.length (tl_Year (timeline_df view)))%nat ->
        nth_error (tl_Year (timeline_df view)) i
        = Some (First_Publication_Year r + Z.of_nat i)) /\
    List.length (tl_Publications (timeline_df view))
    = List.length (tl_Year (timeline_df view)) /\
    List.length (tl_Grants (timeline_df view))
    = List.length (tl_Year (timeline_df view)) /\
    pub_Year (publications view)
    = [ First_Publication_Year r; First_Publication_Year r + 1;
        First_Publication_Year r + 2; First_Publication_Year r + 3;
        First_Publication_Year r + 4 ] /\
    List.length (pub_Journal (publications view)) = 5%nat /\
    List.length (pub_oRCR (publications view)) = 5%nat.
Proof.
  eexists. eexists.
  split; [apply (page_detail_view scientist r rest st Hrows) |].
  cbn [timeline_df publications tl_Year tl_Publications tl_Grants
       pub_Year pub_Journal pub_oRCR].
  split; [apply range_length |].
  split; [intros i Hi; apply range_nth; now rewrite range_length in Hi |].
  split; [unfold cumsum; now rewrite cumsum_from_length, poisson_size |].
  split; [unfold cumsum;
          now rewrite length_map, cumsum_from_length, poisson_size |].
  split; [change (range 0 5) with [0; 1; 2; 3; 4]; cbn [map];
          now rewrite Z.add_0_r |].
  split; [reflexivity |].
  now rewrite length_map, uniform_size.
Qed.

(** X11.  The publication and grant counts of the timeline are running totals
    that start at zero or above and never go down, so the clip of the
    grants at zero changes nothing. *)
Theorem page_detail_cumulative (scientist : string) (r : SubjectRecord)
  (rest : DataFrame) (st : RandomState)
  (Hrows : rows_named DF scientist = r :: rest) :
  exists view st',
    detail scientist st = (DetailPage view, st') /\
    Forall (fun y => 0 <= y) (tl_Publications (timeline_df view)) /\
    StronglySorted Z.le (tl_Publications (timeline_df view)) /\
    Forall (fun y => 0 <= y) (tl_Grants (timeline_df view)) /\
    StronglySorted Z.le (tl_Grants (timeline_df view)) /\
    tl_Grants (timeline_df view)
    = cumsum
        (fst (poisson (6 # 10)
                (List.length
                   (range (First_Publication_Year r) (Award_Year r + 4)))
                (snd (poisson (12 # 10)
                        (List.length
                           (range (First_Publication_Year r)
                              (Award_Year r + 4)))
                        st)))).
Proof.
  eexists. eexists.
  split; [apply (page_detail_view scientist r rest st Hrows) |].
  cbn [timeline_df tl_Publications tl_Grants].
  set (n := List.length _).
  destruct (cumsum_from_bounds _ (poisson_nonneg (12 # 10) n st) 0)
    as [Hpub_low Hpub_sorted].
  destruct (cumsum_from_bounds _
              (poisson_nonneg (6 # 10) n (snd (poisson (12 # 10) n st))) 0)
    as [Hgr_low Hgr_sorted].
  unfold cumsum.
  rewrite (clip_at_0_noop _ Hgr_low).
  repeat split; assumption.
Qed.

End PagesMore.

(** ** More on the rotating highlights *)

(** X12.  Whatever the store holds, even an index out of range, from the first
    firing on the index is the stored one plus the number of firings,
    modulo the length of the list, and the headline is the entry there;
    so a full turn of the list later the state is the same. *)
Theorem rotation_from_any_store (hl : list string) (k : nat) (n : Z)
  (st : HighlightState)
  (Hne : hl <> [])
  (Hk : (0 < k)%nat) :
  let len := Z.of_nat (List.length hl) in
  exists st',
    ticks hl k n st = Ok st' /\
    hi_index st' = (hi_index st + Z.of_nat k) mod len /\
    headline st' = Some (nth (Z.to_nat (hi_index st')) hl EmptyString) /\
    forall n', ticks hl (k + List.length hl) n' st = Ok st'.
Proof.
  intros len.
  assert (Hlen : 0 < len)
    by (destruct hl; [contradiction | subst len; simpl; lia]).
  assert (Hfrom :
    forall j m, (0 < j)%nat ->
      exists st',
        ticks hl j m st = Ok st' /\
        hi_index st' = (hi_index st + Z.of_nat j) mod len /\
        headline st' = Some (nth (Z.to_nat (hi_index st')) hl EmptyString)).
  { intros j m Hj. destruct j as [| j]; [lia |].
    cbn [ticks]. unfold tick.
    rewrite (rotate_highlights_over_step hl m (hi_index st) Hne). fold len.
    cbn [rbind fst snd].
    set (st1 := {| headline := _; hi_index := _ |}).
    assert (H1 : 0 <= hi_index st1 < len)
      by (subst st1; cbn [hi_index]; apply Z.mod_pos_bound; lia).
    destruct (ticks_spec hl Hne j (m + 1) st1 H1) as (st' & Hrun & Hidx & Hhead).
    fold len in Hidx.
    exists st'. split; [exact Hrun |].
    assert (Hidx' : hi_index st' = (hi_index st + Z.of_nat (S j)) mod len).
    { rewrite Hidx. subst st1. cbn [hi_index].
      rewrite Zplus_mod_idemp_l. f_equal. lia. }
    split; [exact Hidx' |].
    destruct j as [| j'].
    - cbn [ticks] in Hrun. injection Hrun as <-. reflexivity.
    - apply Hhead. lia. }
  destruct (Hfrom k n Hk) as (st' & Hrun & Hidx & Hhead).
  exists st'. split; [exact Hrun |]. split; [exact Hidx |].
  split; [exact Hhead |].
  intros n'.
  destruct (Hfrom (k + List.length hl)%nat n' ltac:(lia))
    as (st2 & Hrun2 & Hidx2 & Hhead2).
  rewrite Hrun2. f_equal.
  assert (E : hi_index st2 = hi_index st').
  { rewrite Hidx2, Hidx, Nat2Z.inj_add. fold len.
    replace (hi_index st + (Z.of_nat k + len))
      with (hi_index st + Z.of_nat k + 1 * len) by lia.
    apply Z.mod_add. lia. }
  destruct st2 as [h2 i2], st' as [h' i'].
  cbn [hi_index headline] in E, Hhead2, Hhead.
  congruence.
Qed.

Lemma rotation_from_any_store_witness :
  exists st',
    ticks IMPACT_HIGHLIGHTS 2 0 {| headline := None; hi_index := -7 |} = Ok st' /\
    hi_index st' = 0 /\
    headline st' = Some "1,245 awardees supported" /\
    forall n', ticks IMPACT_HIGHLIGHTS 7 n' {| headline := None; hi_index := -7 |}
               = Ok st'.
Proof.
  assert (Hne : IMPACT_HIGHLIGHTS <> []) by discriminate.
  destruct (rotation_from_any_store IMPACT_HIGHLIGHTS 2 0
              {| headline := None; hi_index := -7 |} Hne ltac:(lia))
    as (st' & Hrun & Hidx & Hhead & Hturn).
  exists st'. split; [exact Hrun |].
  assert (E : hi_index st' = 0) by (rewrite Hidx; reflexivity).
  split; [exact E |].
  split; [rewrite Hhead, E; reflexivity | exact Hturn].
Defined.

(** ** The generated data *)

Lemma map2_length {A B C : Type} (f : A -> B -> C) (xs : list A) (ys : list B) :
  List.length xs = List.length ys ->
  List.length (map2 f xs ys) = List.length xs.
Proof.
  intros E. unfold map2. rewrite length_map, length_combine, <- E.
  apply Nat.min_id.
Qed.

Lemma map2_nth {A B C : Type} (f : A -> B -> C) (xs : list A) (ys : list B)
  (i : nat) (dx : A) (dy : B) (d : C) :
  List.length xs = List.length ys ->
  (i < List.length xs)%nat ->
  nth i (map2 f xs ys) d = f (nth i xs dx) (nth i ys dy).
Proof.
  intros E Hi. unfold map2.
  rewrite (nth_indep _ d (f dx dy))
    by (rewrite length_map, length_combine, <- E, Nat.min_id; exact Hi).
  pose proof (map_nth (fun p => f (fst p) (snd p)) (combine xs ys) (dx, dy) i)
    as Hmap.
  cbn [fst snd] in Hmap. rewrite Hmap.
  now rewrite (combine_nth xs ys i dx dy E).
Qed.

Lemma map_nth_in {A B : Type} (g : A -> B) (l : list A) (i : nat)
  (da : A) (db : B) :
  (i < List.length l)%nat -> nth i (map g l) db = g (nth i l da).
Proof.
  intros Hi.
  rewrite (nth_indep _ db (g da)) by (now rewrite length_map).
  apply map_nth.
Qed.

Lemma np_clip_bounds (low high q : Q) :
  (low <= high)%Q -> (low <= np_clip low high q <= high)%Q.
Proof.
  intros Hlh. unfold np_clip. split.
  - apply Q.min_glb; [exact Hlh | apply Q.le_max_r].
  - apply Q.le_min_l.
Qed.

Lemma astype_int_clip_bounds (low high : Z) (q : Q) :
  0 <= low <= high ->
  low <= astype_int (np_clip (inject_Z low) (inject_Z high) q) <= high.
Proof.
  intros [H0 Hlh].
  assert (HQ : (inject_Z low <= inject_Z high)%Q) by (now rewrite <- Zle_Qle).
  destruct (np_clip_bounds (inject_Z low) (inject_Z high) q HQ) as [Hl Hh].
  unfold astype_int.
  assert (Hpos : Qle_bool 0 (np_clip (inject_Z low) (inject_Z high) q) = true).
  { apply Qle_bool_iff. eapply Qle_trans; [| exact Hl].
    change 0%Q with (inject_Z 0). now rewrite <- Zle_Qle. }
  rewrite Hpos. split.
  - pose proof (Qfloor_resp_le _ _ Hl) as H. now rewrite Qfloor_Z in H.
  - pose proof (Qfloor_resp_le _ _ Hh) as H. now rewrite Qfloor_Z in H.
Qed.

Lemma SCIENTISTS_NoDup : NoDup SCIENTISTS.
Proof.
  unfold SCIENTISTS.
  repeat (constructor; [cbn; intuition discriminate |]).
  constructor.
Qed.

(** In a frame whose names are all different, the rows with the name of a
    row are that row alone. *)
Lemma rows_named_unique (df : DataFrame) (r : SubjectRecord) :
  NoDup (map Scientist df) -> In r df ->
  rows_named df (Scientist r) = [r].
Proof.
  induction df as [| a df IH]; intros Hnd Hin; [contradiction |].
  cbn [map] in Hnd. apply NoDup_cons_iff in Hnd as [Hfresh Hnd].
  unfold rows_named in *. cbn [filter].
  destruct (String.eqb_spec (Scientist a) (Scientist r)) as [E | N].
  - destruct Hin as [-> | Hin].
    + f_equal. apply (rows_named_nil df (Scientist r)).
      intros r' Hr' E'. apply Hfresh. rewrite <- E'. now apply in_map.
    + exfalso. apply Hfresh. rewrite E. now apply in_map.
  - destruct Hin as [-> | Hin]; [contradiction |].
    now apply IH.
Qed.

Section GenerationSpec.

Variable RandomState : Type.
Variable choice :
  forall A : Type,
    list A -> option (list Q) -> nat -> RandomState -> list A * RandomState.
Variable normal : Q -> Q -> nat -> RandomState -> list Q * RandomState.
Variable np_round1_tenths : Q -> Z.
Variable now_year : Z.

(** A draw of [size] values returns that many ([choice] from a list
    that is not empty), and [choice] returns entries of the list it draws
    from. *)
Hypothesis choice_size :
  forall A values weights n st,
    values <> [] ->
    List.length (fst (choice A values weights n st)) = n.
Hypothesis choice_support :
  forall A values weights n st,
    Forall (fun a => In a values) (fst (choice A values weights n st)).
Hypothesis normal_size :
  forall loc scale n st, List.length (fst (normal loc scale n st)) = n.

Local Abbreviation gen :=
  (generate RandomState choice normal np_round1_tenths now_year).

Ltac draw_choice :=
  match goal with
  | |- context [choice ?A ?v ?w ?n ?s] =>
      let Hsize := fresh "Hsize" in
      let Hsupp := fresh "Hsupp" in
      pose proof (choice_size A v w n s ltac:(discriminate)) as Hsize;
      pose proof (choice_support A v w n s) as Hsupp;
      destruct (choice A v w n s) as [? ?];
      cbn [fst snd] in Hsize, Hsupp
  end.

Ltac draw_normal :=
  match goal with
  | |- context [normal ?m ?s ?n ?st] =>
      let Hsize := fresh "Hsize" in
      pose proof (normal_size m s n st) as Hsize;
      destruct (normal m s n st) as [? ?];
      cbn [fst snd] in Hsize
  end.

Lemma generate_spec (st : RandomState) :
  exists DF cohort st',
    gen st = ((Some DF, cohort), st') /\
    map Scientist DF = SCIENTISTS /\
    Forall (row_in_bounds now_year) DF /\
    List.length cohort = 1245%nat /\
    Forall (fun v => (1 <= v <= double_9_9)%Q) cohort.
Proof.
  unfold generate. cbv zeta.
  change (List.length SCIENTISTS) with 10%nat.
  unfold bind, ret.
  draw_choice. draw_choice.
  draw_normal. draw_normal. draw_normal. draw_normal. draw_normal.
  draw_choice. draw_choice. draw_choice. draw_choice.
  draw_normal.
  match goal with
  | |- context [pd_DataFrame now_year ?c] => set (cols := c)
  end.
  assert (Hframe :
    pd_DataFrame now_year cols = Some (map (frame_row now_year cols) (seq 0 10))).
  { unfold pd_DataFrame.
    change (List.length (c_Scientist cols)) with 10%nat.
    unfold column_lengths. subst cols.
    cbn [c_Award_Year c_First_Publication_Year c_SOFEA c_AIS c_EIS c_HIS
         c_SIS c_NIH_Grants c_Companies c_Capital_M_USD c_Field].
    rewrite !length_map, !map2_length by congruence.
    repeat match goal with H : List.length _ = 10%nat |- _ => rewrite H; clear H end.
    reflexivity. }
  rewrite Hframe.
  eexists. eexists. eexists. split; [reflexivity |].
  split; [rewrite map_map; reflexivity |].
  split.
  - apply Forall_map, Forall_forall. intros i Hi.
    apply in_seq in Hi. cbn in Hi.
    unfold row_in_bounds, frame_row.
    cbn [Award_Year First_Publication_Year AIS EIS HIS SIS NIH_Grants
         Companies Capital_M_USD Years_Since_Award].
    subst cols.
    cbn [c_Award_Year c_First_Publication_Year c_AIS c_EIS c_HIS
         c_SIS c_NIH_Grants c_Companies c_Capital_M_USD].
    rewrite (map2_nth Z.sub _ _ i 0 0) by (congruence || lia).
    rewrite (map2_nth Z.mul _ _ i 0 0) by (congruence || lia).
    rewrite !(map_nth_in _ _ i 0%Q) by lia.
    repeat match goal with
           | H : Forall (fun a => In a _) ?l |- _ =>
               let P := fresh "P" in
               pose proof (proj1 (Forall_nth _ _) H i 0 ltac:(lia)) as P;
               cbn beta in P; clear H
           end.
    pose proof (astype_int_clip_bounds 18 48 (nth i l2 0%Q) ltac:(lia)) as B1.
    pose proof (astype_int_clip_bounds 6 30 (nth i l3 0%Q) ltac:(lia)) as B2.
    pose proof (astype_int_clip_bounds 12 26 (nth i l4 0%Q) ltac:(lia)) as B3.
    pose proof (astype_int_clip_bounds 4 14 (nth i l5 0%Q) ltac:(lia)) as B4.
    unfold inject_Z in B1, B2, B3, B4.
    cbn [In] in *.
    destruct P0 as [<- | [<- | [<- | []]]];
      destruct P as [<- | [<- | [<- | []]]];
      repeat split; lia.
  - split; [now rewrite length_map |].
    apply Forall_map, Forall_forall. intros v _.
    apply np_clip_bounds. unfold Qle, double_9_9. cbn. lia.
Qed.

(** X13.  Building the frame succeeds: its ten rows bear the ten names of
    [SCIENTISTS], in that order and each once. *)
Theorem generate_frame (st : RandomState) :
  exists DF cohort st',
    gen st = ((Some DF, cohort), st') /\
    List.length DF = 10%nat /\
    map Scientist DF = SCIENTISTS /\
    NoDup (map Scientist DF).
Proof.
  destruct (generate_spec st) as (DF & cohort & st' & Hgen & Hnames & _).
  exists DF, cohort, st'. split; [exact Hgen |].
  split; [rewrite <- (length_map Scientist), Hnames; reflexivity |].
  split; [exact Hnames |].
  rewrite Hnames. apply SCIENTISTS_NoDup.
Qed.

(** X14.  Every generated row keeps the ranges the module draws from: award
    year 2018 to 2023, first publication two to six years earlier, the
    bucket scores inside their clips, one to four grants, at most two
    companies, capital zero exactly when there is no company, and the
    years since the award counted from the award year. *)
Theorem generate_rows_in_bounds (st : RandomState) :
  exists DF cohort st',
    gen st = ((Some DF, cohort), st') /\
    Forall (row_in_bounds now_year) DF.
Proof.
  destruct (generate_spec st) as (DF & cohort & st' & Hgen & _ & Hrows & _).
  now exists DF, cohort, st'.
Qed.

(** X15.  The cohort sample has 1245 values, each between 1 and the double
    that [9.9] denotes. *)
Theorem generate_cohort_bounds (st : RandomState) :
  exists DF cohort st',
    gen st = ((DF, cohort), st') /\
    List.length cohort = 1245%nat /\
    Forall (fun v => (1 <= v <= double_9_9)%Q) cohort.
Proof.
  destruct (generate_spec st) as (DF & cohort & st' & Hgen & _ & _ & Hlen & Hall).
  now exists (Some DF), cohort, st'.
Qed.

Variable poisson : Q -> nat -> RandomState -> list Z * RandomState.
Variable uniform : Q -> Q -> nat -> RandomState -> list Q * RandomState.

(** X16.  On the generated frame every one of the ten scientists has exactly
    one row, [page_detail] shows that row, and its timeline spans between
    six and ten years. *)
Theorem generate_detail_pages (name : string) (st st2 : RandomState)
  (Hin : In name SCIENTISTS) :
  exists DF cohort st' r view st3,
    gen st = ((Some DF, cohort), st') /\
    rows_named DF name = [r] /\
    page_detail RandomState poisson uniform DF name st2
    = (DetailPage view, st3) /\
    subject view = r /\
    (6 <= List.length (tl_Year (timeline_df view)) <= 10)%nat.
Proof.
  destruct (generate_spec st) as (DF & cohort & st' & Hgen & Hnames & Hrows & _).
  rewrite <- Hnames in Hin. apply in_map_iff in Hin as (r & <- & Hr).
  assert (Hnd : NoDup (map Scientist DF))
    by (rewrite Hnames; apply SCIENTISTS_NoDup).
  pose proof (rows_named_unique DF r Hnd Hr) as Hone.
  exists DF, cohort, st', r. eexists. eexists.
  split; [exact Hgen |]. split; [exact Hone |].
  split; [apply (page_detail_view RandomState poisson uniform DF
                   (Scientist r) r [] st2 Hone) |].
  split; [reflexivity |].
  cbn [timeline_df tl_Year]. rewrite range_length.
  rewrite Forall_forall in Hrows.
  destruct (Hrows r Hr) as (_ & Hgap & _). lia.
Qed.

End GenerationSpec.

(** ** The further statements at concrete frames and generators *)

Lemma CounterRng_poisson_size (lam : Q) (n : nat) (st : nat) :
  List.length (fst (CounterRng.poisson lam n st)) = n.
Proof. unfold CounterRng.poisson. cbn [fst]. now rewrite length_map, length_seq. Qed.

Lemma CounterRng_poisson_nonneg (lam : Q) (n : nat) (st : nat) :
  Forall (fun v => 0 <= v) (fst (CounterRng.poisson lam n st)).
Proof.
  unfold CounterRng.poisson. cbn [fst].
  apply Forall_map, Forall_forall. intros i _. lia.
Qed.

Lemma CounterRng_uniform_size (low high : Q) (n : nat) (st : nat) :
  List.length (fst (CounterRng.uniform low high n st)) = n.
Proof. unfold CounterRng.uniform. cbn [fst]. now rewrite length_map, length_seq. Qed.

Lemma CounterGen_choice_size (A : Type) (values : list A)
  (weights : option (list Q)) (n : nat) (st : nat) :
  values <> [] ->
  List.length (fst (CounterGen.choice A values weights n st)) = n.
Proof.
  intros Hne. unfold CounterGen.choice. cbn [fst].
  destruct values as [| d vs]; [contradiction |].
  now rewrite length_map, length_seq.
Qed.

Lemma CounterGen_choice_support (A : Type) (values : list A)
  (weights : option (list Q)) (n : nat) (st : nat) :
  Forall (fun a => In a values) (fst (CounterGen.choice A values weights n st)).
Proof.
  unfold CounterGen.choice. cbn [fst].
  destruct values as [| d vs]; [constructor |].
  apply Forall_map, Forall_forall. intros i _.
  apply nth_In, Nat.mod_upper_bound. discriminate.
Qed.

Lemma CounterGen_normal_size (loc scale : Q) (n : nat) (st : nat) :
  List.length (fst (CounterGen.normal loc scale n st)) = n.
Proof. unfold CounterGen.normal. cbn [fst]. now rewrite length_map, length_seq. Qed.

Lemma route_unknown_detail_witness :
  (forall r, In r Samples.frame -> Scientist r <> "Dr. No Body") /\
  route stable_sort_desc CounterRng.RandomState CounterRng.poisson
    CounterRng.uniform Samples.frame [] (Some "/detail/Dr.%20No%20Body") 3%nat
  = (NotFoundPage "Scientist not found", 3%nat).
Proof.
  assert (Hnone : forall r, In r Samples.frame -> Scientist r <> "Dr. No Body").
  { intros r [<- | [<- | [<- | []]]]; discriminate. }
  split; [exact Hnone |].
  exact (route_unknown_detail stable_sort_desc CounterRng.RandomState
           CounterRng.poisson CounterRng.uniform Samples.frame []
           "Dr.%20No%20Body" 3%nat Hnone).
Defined.

Lemma bar_drilldown_witness :
  In ("Dr. Emily Johnson", 79) (sofea_score_bar stable_sort_desc Samples.frame) /\
  exists href view st',
    bar_click (Some [ {| x := "Dr. Emily Johnson" |} ]) = Ok href /\
    route stable_sort_desc CounterRng.RandomState CounterRng.poisson
      CounterRng.uniform Samples.frame [] (Some href) 0%nat
    = (DetailPage view, st') /\
    In (subject view) Samples.frame /\
    Scientist (subject view) = "Dr. Emily Johnson".
Proof.
  assert (Hbar : In ("Dr. Emily Johnson", 79)
                   (sofea_score_bar stable_sort_desc Samples.frame))
    by (right; left; reflexivity).
  split; [exact Hbar |].
  exact (bar_drilldown stable_sort_desc (insertion_sort_contract false)
           CounterRng.RandomState CounterRng.poisson CounterRng.uniform
           Samples.frame [] "Dr. Emily Johnson" 79 [] 0%nat Hbar
           eq_refl eq_refl).
Defined.

Lemma page_detail_tables_witness :
  exists view st',
    page_detail CounterRng.RandomState CounterRng.poisson CounterRng.uniform
      Samples.frame "Dr. Sarah Chen" 0%nat
    = (DetailPage view, st') /\
    List.length (tl_Year (timeline_df view)) = 8%nat /\
    List.length (tl_Publications (timeline_df view)) = 8%nat /\
    List.length (tl_Grants (timeline_df view)) = 8%nat /\
    pub_Year (publications view) = [2015; 2016; 2017; 2018; 2019] /\
    List.length (pub_oRCR (publications view)) = 5%nat.
Proof.
  destruct (page_detail_tables CounterRng.RandomState CounterRng.poisson
              CounterRng.uniform CounterRng_poisson_size
              CounterRng_uniform_size Samples.frame "Dr. Sarah Chen"
              Samples.chen [] 0%nat eq_refl)
    as (view & st' & Hpage & Hlen & _ & Hpubs & Hgrants & Hyears & _ & Horcr).
  exists view, st'.
  split; [exact Hpage |].
  split; [exact Hlen |].
  split; [now rewrite Hpubs, Hlen |].
  split; [now rewrite Hgrants, Hlen |].
  split; [exact Hyears | exact Horcr].
Defined.

Lemma page_detail_cumulative_witness :
  exists view st',
    page_detail CounterRng.RandomState CounterRng.poisson CounterRng.uniform
      Samples.frame "Dr. James Washington" 0%nat
    = (DetailPage view, st') /\
    StronglySorted Z.le (tl_Publications (timeline_df view)) /\
    StronglySorted Z.le (tl_Grants (timeline_df view)) /\
    Forall (fun y => 0 <= y) (tl_Grants (timeline_df view)).
Proof.
  destruct (page_detail_cumulative CounterRng.RandomState CounterRng.poisson
              CounterRng.uniform CounterRng_poisson_nonneg Samples.frame
              "Dr. James Washington" Samples.washington [] 0%nat eq_refl)
    as (view & st' & Hpage & _ & Hpubs & Hlow & Hgrants & _).
  exists view, st'. repeat split; assumption.
Defined.

Lemma generate_frame_witness :
  exists DF cohort st',
    generate CounterGen.RandomState CounterGen.choice CounterGen.normal
      CounterGen.np_round1_tenths 2026 0%nat
    = ((Some DF, cohort), st') /\
    List.length DF = 10%nat /\
    map Scientist DF = SCIENTISTS /\
    NoDup (map Scientist DF).
Proof.
  exact (generate_frame CounterGen.RandomState CounterGen.choice
           CounterGen.normal CounterGen.np_round1_tenths 2026
           CounterGen_choice_size CounterGen_choice_support
           CounterGen_normal_size 0%nat).
Defined.

Lemma generate_rows_in_bounds_witness :
  exists DF cohort st',
    generate CounterGen.RandomState CounterGen.choice CounterGen.normal
      CounterGen.np_round1_tenths 2026 0%nat
    = ((Some DF, cohort), st') /\
    Forall (row_in_bounds 2026) DF.
Proof.
  exact (generate_rows_in_bounds CounterGen.RandomState CounterGen.choice
           CounterGen.normal CounterGen.np_round1_tenths 2026
           CounterGen_choice_size CounterGen_choice_support
           CounterGen_normal_size 0%nat).
Defined.

Lemma generate_cohort_bounds_witness :
  exists DF cohort st',
    generate CounterGen.RandomState CounterGen.choice CounterGen.normal
      CounterGen.np_round1_tenths 2026 0%nat
    = ((DF, cohort), st') /\
    List.length cohort = 1245%nat /\
    Forall (fun v => (1 <= v <= double_9_9)%Q) cohort.
Proof.
  exact (generate_cohort_bounds CounterGen.RandomState CounterGen.choice
           CounterGen.normal CounterGen.np_round1_tenths 2026
           CounterGen_choice_size CounterGen_choice_support
           CounterGen_normal_size 0%nat).
Defined.

Lemma generate_detail_pages_witness :
  In "Dr. Noah Lee" SCIENTISTS /\
  exists DF cohort st' r view st3,
    generate CounterGen.RandomState CounterGen.choice CounterGen.normal
      CounterGen.np_round1_tenths 2026 0%nat
    = ((Some DF, cohort), st') /\
    rows_named DF "Dr. Noah Lee" = [r] /\
    page_detail CounterGen.RandomState CounterRng.poisson CounterRng.uniform
      DF "Dr. Noah Lee" 0%nat
    = (DetailPage view, st3) /\
    subject view = r /\
    (6 <= List.length (tl_Year (timeline_df view)) <= 10)%nat.
Proof.
  assert (Hin : In "Dr. Noah Lee" SCIENTISTS) by (cbn; auto 12).
  split; [exact Hin |].
  exact (generate_detail_pages CounterGen.RandomState CounterGen.choice
           CounterGen.normal CounterGen.np_round1_tenths 2026
           CounterGen_choice_size CounterGen_choice_support
           CounterGen_normal_size CounterRng.poisson CounterRng.uniform
           "Dr. Noah Lee" 0%nat 0%nat Hin).
Defined.
